(** * Customer purchase analysis dashboard: the cleaning, derivation,
      filtering and aggregation pipeline of [app.py]

    The script is a straight-line pandas/Streamlit program.  Its data frames
    are embedded as lists of records (one record per row, in row order), its
    column operations as list functions, and its Streamlit calls as events
    appended to a log by a small halting writer monad.

    Modelling conventions.
    - [Quantity] is an [int64] column: [Z], with the wrap-around of 64-bit
      addition written out where the script adds quantities.
    - [UnitPrice] and [TotalPrice] are numeric columns read as exact
      rationals: [Q].  Binary floating-point rounding is not modelled.
    - [CustomerID] is a numeric column with missing values before
      sanitization ([option Q]) and an integer column after [astype(int)].
    - [InvoiceDate] is a [datetime64[ns]] column: nanoseconds since
      1970-01-01T00:00 as [Z].  Missing timestamps are not modelled.
    - [groupby] is read with pandas' [sort=True] default (group keys in
      ascending order).  For the categorical [DayOfWeek] key the result
      depends on the [observed] argument, which the script never passes:
      its value is the default of the installed pandas, [False] before
      pandas 3.0 (every category appears, whether or not a row carries it)
      and [True] from 3.0 on (only the categories that occur appear).  The
      default is a parameter [observed] of the aggregations and of the
      run.
    - Rows with a missing [Description] or [Country] are not modelled. *)

From Stdlib Require Import ZArith QArith List String Ascii Bool Lia.
From Stdlib Require Import Permutation Sorted OrderedTypeEx.
Import ListNotations.

Local Open Scope Z_scope.

(** ** Data frames *)

(** One line of the source table as loaded: [CustomerID] may be missing. *)
Module Raw.
Record Row : Type := mk {
  InvoiceNo   : string;
  Description : string;
  Quantity    : Z;
  InvoiceDate : Z;
  UnitPrice   : Q;
  CustomerID  : option Q;
  Country     : string
}.
End Raw.

Definition RawRow : Type := Raw.Row.

(** One line after sanitization: [CustomerID] is an integer. *)
Record SaneRow : Type := mkRow {
  InvoiceNo   : string;
  Description : string;
  Quantity    : Z;
  InvoiceDate : Z;
  UnitPrice   : Q;
  CustomerID  : Z;
  Country     : string
}.

(** A row of [df] after the derived columns have been added.  [DayOfWeek]
    holds the categorical code: [Some i] is the [i]-th category, [None] is
    the missing value a categorical takes for a label outside its
    categories. *)
Record CleanRow : Type := mkClean {
  base       :> SaneRow;
  TotalPrice : Q;
  YearMonth  : string;
  Month      : Z;
  DayOfWeek  : option nat;
  Hour       : Z
}.

(** ** Calendar fields of a timestamp *)

Definition ns_per_hour : Z := 3600 * 1000000000.
Definition ns_per_day : Z := 24 * ns_per_hour.

(** Days since 1970-01-01, rounding towards the past. *)
Definition days_since_epoch (t : Z) : Z := t / ns_per_day.

(** [dt.hour] *)
Definition dt_hour (t : Z) : Z := (t mod ns_per_day) / ns_per_hour.

(** [dt.dayofweek]: Monday is 0; 1970-01-01 was a Thursday. *)
Definition dt_dayofweek (t : Z) : Z := (days_since_epoch t + 3) mod 7.

(** Year and month of the proleptic Gregorian calendar from the day count
    (eras of 400 years starting on 1 March). *)
Definition civil_year_month (days : Z) : Z * Z :=
  let z := days + 719468 in
  let era := z / 146097 in
  let doe := z - era * 146097 in
  let yoe := (doe - doe / 1460 + doe / 36524 - doe / 146096) / 365 in
  let doy := doe - (365 * yoe + yoe / 4 - yoe / 100) in
  let mp := (5 * doy + 2) / 153 in
  let m := if mp <? 10 then mp + 3 else mp - 9 in
  let y := yoe + era * 400 in
  (if m <=? 2 then y + 1 else y, m).

(** [dt.month] *)
Definition dt_month (t : Z) : Z := snd (civil_year_month (days_since_epoch t)).

Definition dt_year (t : Z) : Z := fst (civil_year_month (days_since_epoch t)).

Definition digit (n : Z) : ascii := ascii_of_nat (48 + Z.to_nat (n mod 10)).

(** [dt.to_period('M').astype(str)]: the label ["YYYY-MM"]. *)
Definition period_M_str (t : Z) : string :=
  let y := dt_year t in
  let m := dt_month t in
  String (digit (y / 1000)) (String (digit (y / 100)) (String (digit (y / 10))
    (String (digit y) (String "-"%char
      (String (digit (m / 10)) (String (digit m) EmptyString)))))).

(** The names [dt.day_name()] returns, indexed by [dt.dayofweek]. *)
Definition day_names : list string :=
  ["Monday"; "Tuesday"; "Wednesday"; "Thursday"; "Friday"; "Saturday";
   "Sunday"]%string.

(** [dt.day_name()] *)
Definition dt_day_name (t : Z) : string :=
  nth (Z.to_nat (dt_dayofweek t)) day_names EmptyString.

(** ** Preprocessing (section 2 of the script) *)

Definition notna {A : Type} (x : option A) : bool :=
  match x with Some _ => true | None => false end.

(** [df.dropna(subset=['CustomerID'])] *)
Definition dropna_CustomerID (df : list RawRow) : list RawRow :=
  filter (fun r => notna (Raw.CustomerID r)) df.

(** Conversion of a number to [int]: truncation towards zero. *)
Definition to_int (q : Q) : Z := Z.quot (Qnum q) (Z.pos (Qden q)).

(** [df['CustomerID'].astype(int)] on one row; a missing value cannot be
    converted. *)
Definition astype_int_row (r : RawRow) : option SaneRow :=
  match Raw.CustomerID r with
  | Some c =>
      Some (mkRow (Raw.InvoiceNo r) (Raw.Description r) (Raw.Quantity r)
                  (Raw.InvoiceDate r) (Raw.UnitPrice r) (to_int c)
                  (Raw.Country r))
  | None => None
  end.

(** [df['CustomerID'] = df['CustomerID'].astype(int)]: the conversion
    raises as soon as one value is missing. *)
Fixpoint astype_int_CustomerID (df : list RawRow) : option (list SaneRow) :=
  match df with
  | [] => Some []
  | r :: df' =>
      match astype_int_row r, astype_int_CustomerID df' with
      | Some r', Some out => Some (r' :: out)
      | _, _ => None
      end
  end.

Definition Qgtb (a b : Q) : bool :=
  match (a ?= b)%Q with Gt => true | _ => false end.

(** [df[(df['Quantity'] > 0) & (df['UnitPrice'] > 0)]] *)
Definition positive_mask (r : SaneRow) : bool :=
  (Quantity r >? 0) && Qgtb (UnitPrice r) 0.

Definition drop_nonpositive (df : list SaneRow) : list SaneRow :=
  filter positive_mask df.

(** The Sanitizer: lines 37 to 42 of the script. *)
Definition sanitize (df_raw : list RawRow) : option (list SaneRow) :=
  match astype_int_CustomerID (dropna_CustomerID df_raw) with
  | Some df => Some (drop_nonpositive df)
  | None => None
  end.

(** [day_order] and the conversion of one label to a categorical over the
    given categories: its position among them, or missing. *)
Definition day_order : list string :=
  ["Monday"; "Tuesday"; "Wednesday"; "Thursday"; "Friday"; "Saturday";
   "Sunday"]%string.

Fixpoint Categorical (categories : list string) (label : string)
  : option nat :=
  match categories with
  | [] => None
  | c :: cs =>
      if String.eqb c label then Some O
      else match Categorical cs label with
           | Some i => Some (S i)
           | None => None
           end
  end.

(** The derived columns: lines 45 to 53. *)
Definition derive_row (r : SaneRow) : CleanRow :=
  {| base := r;
     TotalPrice := (inject_Z (Quantity r) * UnitPrice r)%Q;
     YearMonth := period_M_str (InvoiceDate r);
     Month := dt_month (InvoiceDate r);
     DayOfWeek := Categorical day_order (dt_day_name (InvoiceDate r));
     Hour := dt_hour (InvoiceDate r) |}.

Definition derive (df : list SaneRow) : list CleanRow := map derive_row df.

(** [df] as it stands at line 53. *)
Definition preprocess (df_raw : list RawRow) : option (list CleanRow) :=
  match sanitize df_raw with
  | Some df => Some (derive df)
  | None => None
  end.

(** The two lines of the specification's worked example: 2011-01-05 10:00
    and 11:00, the second one a return. *)
Definition jan5_2011_10h : Z := (14979 * 24 + 10) * ns_per_hour.
Definition jan5_2011_11h : Z := (14979 * 24 + 11) * ns_per_hour.

Definition example_raw : list RawRow :=
  [ Raw.mk "536365"%string "LANTERN"%string 3 jan5_2011_10h (5 # 2)
          (Some (17850 # 1)) "Germany"%string;
    Raw.mk "C536379"%string "LANTERN"%string (-1) jan5_2011_11h (5 # 1)
          (Some (17850 # 1)) "Germany"%string ].

(** ** Column helpers *)

(** Sum of a numeric column. *)
Definition Qsum (l : list Q) : Q := fold_right Qplus 0%Q l.

Definition Zsum (l : list Z) : Z := fold_right Z.add 0 l.

(** The signed 64-bit integer an integer is reduced to when [int64]
    arithmetic wraps around. *)
Definition wrap64 (z : Z) : Z := (z + 2 ^ 63) mod 2 ^ 64 - 2 ^ 63.

(** Sum of an [int64] column: the values are added one after the other,
    each addition wrapping around. *)
Definition int64_sum (l : list Z) : Z :=
  fold_left (fun acc x => wrap64 (acc + x)) l 0.

(** [Series.nunique()] on a string column. *)
Definition nunique (l : list string) : nat :=
  List.length (nodup string_dec l).

Section Keys.
Context {K : Type} (cmp : K -> K -> comparison).

Definition key_eqb (a b : K) : bool :=
  match cmp a b with Eq => true | _ => false end.

Definition key_lt (a b : K) : Prop := cmp a b = Lt.

(** Insertion of a key into an ascending list without repetition. *)
Fixpoint insert_key (k : K) (ks : list K) : list K :=
  match ks with
  | [] => [k]
  | k' :: ks' =>
      match cmp k k' with
      | Lt => k :: ks
      | Eq => ks
      | Gt => k' :: insert_key k ks'
      end
  end.

(** [sorted(column.unique())], also the key order of a [groupby]. *)
Definition sorted_unique (l : list K) : list K :=
  fold_right insert_key [] l.

Context {R : Type} (key : R -> K).

(** The rows of one group, in row order. *)
Definition group_rows (k : K) (df : list R) : list R :=
  filter (fun r => key_eqb (key r) k) df.

(** [df.groupby(key)[val].sum()] for a rational and an [int64] column. *)
Definition groupby_sum_Q (val : R -> Q) (df : list R) : list (K * Q) :=
  map (fun k => (k, Qsum (map val (group_rows k df))))
      (sorted_unique (map key df)).

Definition groupby_sum_Z (val : R -> Z) (df : list R) : list (K * Z) :=
  map (fun k => (k, int64_sum (map val (group_rows k df))))
      (sorted_unique (map key df)).
End Keys.

Section NLargest.
Context {A : Type} (gtb : A -> A -> bool).

(** Insertion in front of the first entry that is not greater: an entry
    stays ahead of the equal entries that followed it. *)
Fixpoint insert_desc (x : A) (l : list A) : list A :=
  match l with
  | [] => [x]
  | y :: l' => if gtb y x then y :: insert_desc x l' else x :: l
  end.

Definition sort_desc (l : list A) : list A := fold_right insert_desc [] l.

(** [nlargest(n)] with [keep='first']: the [n] largest entries in
    descending order, equal entries in their order of appearance. *)
Definition nlargest (n : nat) (l : list A) : list A :=
  firstn n (sort_desc l).
End NLargest.

(** [sort_values(col)] on a string column: a stable ascending sort. *)
Fixpoint insert_asc {A : Type} (key : A -> string) (x : A) (l : list A)
  : list A :=
  match l with
  | [] => [x]
  | y :: l' =>
      match String.compare (key y) (key x) with
      | Lt => y :: insert_asc key x l'
      | _ => x :: l
      end
  end.

Definition sort_values {A : Type} (key : A -> string) (l : list A) : list A :=
  fold_right (insert_asc key) [] l.

(** ** Time filter (lines 61 to 72) *)

(** [sorted(df['Month'].unique())]: the options the month selector offers. *)
Definition month_options (df : list CleanRow) : list Z :=
  sorted_unique Z.compare (map Month df).

(** [df['Month'].isin(selected_months)] *)
Definition isin (selected_months : list Z) (m : Z) : bool :=
  existsb (Z.eqb m) selected_months.

Definition truthy {A : Type} (l : list A) : bool :=
  match l with [] => false | _ :: _ => true end.

Definition empty {A : Type} (df : list A) : bool := negb (truthy df).

(** ** Aggregations (sections 4 and 5 of the script) *)

Definition total_sales (df : list CleanRow) : Q := Qsum (map TotalPrice df).

Definition total_orders (df : list CleanRow) : nat :=
  nunique (map (fun r : CleanRow => InvoiceNo r) df).

Definition total_customers (df : list CleanRow) : nat :=
  List.length (nodup Z.eq_dec (map (fun r : CleanRow => CustomerID r) df)).

Definition Qnat (n : nat) : Q := inject_Z (Z.of_nat n).

Definition avg_order_value (df : list CleanRow) : Q :=
  if (0 <? total_orders df)%nat
  then (total_sales df / Qnat (total_orders df))%Q
  else 0%Q.

(** [groupby('YearMonth').agg(TotalSales, OrderCount)], sorted by label. *)
Definition monthly_summary (df : list CleanRow) : list (string * Q * nat) :=
  sort_values (fun e => fst (fst e))
    (map (fun k =>
            (k,
             Qsum (map TotalPrice (group_rows String.compare YearMonth k df)),
             nunique (map (fun r : CleanRow => InvoiceNo r)
                          (group_rows String.compare YearMonth k df))))
         (sorted_unique String.compare (map YearMonth df))).

(** The rows carrying the [i]-th weekday category. *)
Definition has_day (i : nat) (r : CleanRow) : bool :=
  match DayOfWeek r with
  | Some j => Nat.eqb j i
  | None => false
  end.

Definition day_codes : list nat := seq 0 (List.length day_order).

Definition day_label (i : nat) : string := nth i day_order EmptyString.

(** Whether a row of the frame carries the [i]-th weekday category, and
    whether one carries it together with the hour [h]. *)
Definition occurs_day (df : list CleanRow) (i : nat) : bool :=
  existsb (has_day i) df.

Definition occurs_day_hour (df : list CleanRow) (i : nat) (h : Z) : bool :=
  existsb (fun r => has_day i r && (Hour r =? h)) df.

(** The group keys of a [groupby] on the weekday category, in category
    order: every category, or with [observed] only those that occur. *)
Definition group_days (observed : bool) (df : list CleanRow) : list nat :=
  if observed then filter (occurs_day df) day_codes else day_codes.

(** [df_filtered.groupby('DayOfWeek')['TotalPrice'].sum().reset_index()]:
    one entry per group key. *)
Definition daily_sales (observed : bool) (df : list CleanRow)
  : list (string * Q) :=
  map (fun i => (day_label i, Qsum (map TotalPrice (filter (has_day i) df))))
      (group_days observed df).

(** The hours grouped with the [i]-th weekday category: every hour that
    occurs in the frame, or with [observed] only those that occur on that
    weekday. *)
Definition group_hours (observed : bool) (df : list CleanRow) (i : nat)
  : list Z :=
  if observed
  then filter (occurs_day_hour df i) (sorted_unique Z.compare (map Hour df))
  else sorted_unique Z.compare (map Hour df).

(** [df_filtered.groupby(['DayOfWeek', 'Hour'])['TotalPrice'].sum()]: a
    series over the pairs of a weekday category and an hour, in ascending
    order of the pairs. *)
Definition day_hour_sum (observed : bool) (df : list CleanRow)
  : list ((nat * Z) * Q) :=
  flat_map
    (fun i =>
       map (fun h =>
              ((i, h),
               Qsum (map TotalPrice
                         (filter (fun r => has_day i r && (Hour r =? h)) df))))
           (group_hours observed df i))
    day_codes.

(** A frame with labelled rows and columns. *)
Record Matrix : Type := mkMatrix {
  index   : list string;
  columns : list Z;
  values  : list (list Q)
}.

Definition lookup2 (i : nat) (h : Z) (s : list ((nat * Z) * Q)) : option Q :=
  match find (fun e => Nat.eqb (fst (fst e)) i && (snd (fst e) =? h)) s with
  | Some e => Some (snd e)
  | None => None
  end.

(** [Series.unstack(fill_value)] of a series keyed by (weekday, hour): the
    inner level becomes the columns, absent pairs take the fill value. *)
Definition unstack (fill : Q) (s : list ((nat * Z) * Q)) : Matrix :=
  let rows := sorted_unique Nat.compare (map (fun e => fst (fst e)) s) in
  let cols := sorted_unique Z.compare (map (fun e => snd (fst e)) s) in
  {| index := map day_label rows;
     columns := cols;
     values :=
       map (fun i =>
              map (fun h => match lookup2 i h s with
                            | Some v => v
                            | None => fill
                            end) cols) rows |}.

Definition hourly_sales (observed : bool) (df : list CleanRow) : Matrix :=
  unstack 0%Q (day_hour_sum observed df).

(** [groupby('Description')['Quantity'].sum().nlargest(10).reset_index()] *)
Definition top_selling_products_qty (df : list CleanRow) : list (string * Z) :=
  nlargest (fun a b => snd a >? snd b) 10
    (groupby_sum_Z String.compare (fun r : CleanRow => Description r)
                   (fun r : CleanRow => Quantity r) df).

(** [groupby('Description')['TotalPrice'].sum().nlargest(10).reset_index()] *)
Definition top_revenue_products (df : list CleanRow) : list (string * Q) :=
  nlargest (fun a b => Qgtb (snd a) (snd b)) 10
    (groupby_sum_Q String.compare (fun r : CleanRow => Description r)
                   TotalPrice df).

Definition country_sales (df : list CleanRow) : list (string * Q) :=
  groupby_sum_Q String.compare (fun r : CleanRow => Country r) TotalPrice df.

(** [country_sales.nlargest(11, 'TotalPrice')] *)
Definition country_sales_top_10 (df : list CleanRow) : list (string * Q) :=
  nlargest (fun a b => Qgtb (snd a) (snd b)) 11 (country_sales df).

Definition United_Kingdom : string := "United Kingdom".

(** [country_sales[country_sales['Country'] != 'United Kingdom']] *)
Definition country_sales_other (df : list CleanRow) : list (string * Q) :=
  filter (fun e => negb (String.eqb (fst e) United_Kingdom)) (country_sales df).

(** ['United Kingdom' in country_sales_top_10['Country'].values] *)
Definition dominant_in_top (df : list CleanRow) : bool :=
  existsb (String.eqb United_Kingdom) (map fst (country_sales_top_10 df)).

(** ** The script as a program over Streamlit events *)

Inductive figure : Type :=
| fig_monthly (data : list (string * Q * nat))
| fig_order_count (data : list (string * Q * nat))
| fig_daily (data : list (string * Q))
| fig_heatmap (z : list (list Q)) (x : list Z) (y : list string)
| fig_top_qty (data : list (string * Z))
| fig_top_revenue (data : list (string * Q))
| fig_country (title : string) (data : list (string * Q)).

Inductive event : Type :=
| st_error (msg : string)
| st_sidebar_multiselect (options default : list Z)
| st_sidebar_warning (msg : string)
| st_warning (msg : string)
| st_metric (label : string) (value : Q)
| st_plotly_chart (fig : figure).

(** How a run of the script ends: it reaches the end of the stretch in hand
    with a value, it is halted by [st.stop()], or an exception is raised. *)
Inductive outcome (A : Type) : Type :=
| Ret (a : A)
| Stopped
| Raised.

Arguments Ret {A}.
Arguments Stopped {A}.
Arguments Raised {A}.

(** A computation extends the log of events emitted so far. *)
Definition App (A : Type) : Type := list event -> outcome A * list event.

Definition ret {A : Type} (a : A) : App A := fun log => (Ret a, log).

Definition bind {A B : Type} (m : App A) (f : A -> App B) : App B :=
  fun log =>
    match m log with
    | (Ret a, log') => f a log'
    | (Stopped, log') => (Stopped, log')
    | (Raised, log') => (Raised, log')
    end.

Notation "x <- m ;; k" := (bind m (fun x => k))
  (at level 61, m at next level, right associativity).
Notation "m ;; k" := (bind m (fun _ => k))
  (at level 61, right associativity).

Definition emit (e : event) : App unit := fun log => (Ret tt, log ++ [e]).

Definition st_stop {A : Type} : App A := fun log => (Stopped, log).

Definition raise {A : Type} : App A := fun log => (Raised, log).

Definition msg_file_not_found : string :=
  "데이터 파일을 찾을 수 없습니다. 'Online Retail.xlsx' 파일이 스크립트와 같은 폴더에 있는지 확인해주세요.".

Definition msg_all_months : string :=
  "모든 월이 선택되었습니다. 특정 월을 선택해주세요.".

Definition msg_no_data : string :=
  "선택된 필터에 해당하는 데이터가 없습니다. 필터를 조정해주세요.".

Definition title_other : string := "영국 제외 국가별 매출 기여도".

Definition title_top_10 : string := "국가별 매출 기여도 (TOP 10)".

(** [load_data]: the table when the file is found, an error message and a
    halt when it is not. *)
Definition load_data (file : option (list RawRow)) : App (list RawRow) :=
  match file with
  | Some df => ret df
  | None => emit (st_error msg_file_not_found) ;; st_stop
  end.

(** Lines 37 to 53; a failed integer conversion raises. *)
Definition preprocessing (df_raw : list RawRow) : App (list CleanRow) :=
  match preprocess df_raw with
  | Some df => ret df
  | None => raise
  end.

(** Lines 68 to 72. *)
Definition time_filter (df : list CleanRow) (selected_months : list Z)
  : App (list CleanRow) :=
  if truthy selected_months
  then ret (filter (fun r => isin selected_months (Month r)) df)
  else emit (st_sidebar_warning msg_all_months) ;; ret df.

(** Lines 75 to 77. *)
Definition empty_gate (df_filtered : list CleanRow) : App unit :=
  if empty df_filtered
  then emit (st_warning msg_no_data) ;; st_stop
  else ret tt.

(** Lines 201 to 225. *)
Definition country_chart (df : list CleanRow) : figure :=
  if dominant_in_top df
  then fig_country title_other (country_sales_other df)
  else fig_country title_top_10 (country_sales_top_10 df).

(** Lines 82 to 225: every metric and chart, in script order.  [observed]
    is the default the installed pandas gives to the two groupings on the
    weekday category. *)
Definition aggregate (observed : bool) (df_filtered : list CleanRow)
  : App unit :=
  emit (st_metric "총 매출" (total_sales df_filtered)) ;;
  emit (st_metric "총 주문 건수" (Qnat (total_orders df_filtered))) ;;
  emit (st_metric "총 고객 수" (Qnat (total_customers df_filtered))) ;;
  emit (st_metric "평균 주문 금액" (avg_order_value df_filtered)) ;;
  emit (st_plotly_chart (fig_monthly (monthly_summary df_filtered))) ;;
  emit (st_plotly_chart (fig_order_count (monthly_summary df_filtered))) ;;
  emit (st_plotly_chart (fig_daily (daily_sales observed df_filtered))) ;;
  emit (st_plotly_chart
          (fig_heatmap (values (hourly_sales observed df_filtered))
                       (columns (hourly_sales observed df_filtered))
                       (index (hourly_sales observed df_filtered)))) ;;
  emit (st_plotly_chart (fig_top_qty (top_selling_products_qty df_filtered))) ;;
  emit (st_plotly_chart (fig_top_revenue (top_revenue_products df_filtered))) ;;
  emit (st_plotly_chart (country_chart df_filtered)).

(** One run of the script: [observed] is the grouping default of the
    installed pandas, [file] is what the loader finds, [selected_months] is
    what the month selector returns. *)
Definition main (observed : bool) (file : option (list RawRow))
  (selected_months : list Z) : App unit :=
  df_raw <- load_data file ;;
  df <- preprocessing df_raw ;;
  emit (st_sidebar_multiselect (month_options df) (month_options df)) ;;
  df_filtered <- time_filter df selected_months ;;
  empty_gate df_filtered ;;
  aggregate observed df_filtered.

Definition run (observed : bool) (file : option (list RawRow))
  (selected_months : list Z) : outcome unit * list event :=
  main observed file selected_months [].

(** An event that carries an aggregate of the filtered frame. *)
Definition is_aggregate (e : event) : bool :=
  match e with
  | st_metric _ _ | st_plotly_chart _ => true
  | _ => false
  end.

(** ** Predicates used to state the properties *)

(** A loaded row the Sanitizer keeps. *)
Definition valid_raw (r0 : RawRow) : Prop :=
  Raw.CustomerID r0 <> None /\ Raw.Quantity r0 > 0 /\ (0 < Raw.UnitPrice r0)%Q.

(** [r] is the loaded row [r0] with its customer identifier converted to an
    integer and every other field as it was. *)
Definition passed_through (r0 : RawRow) (r : SaneRow) : Prop :=
  InvoiceNo r = Raw.InvoiceNo r0 /\
  Description r = Raw.Description r0 /\
  Quantity r = Raw.Quantity r0 /\
  InvoiceDate r = Raw.InvoiceDate r0 /\
  UnitPrice r = Raw.UnitPrice r0 /\
  Country r = Raw.Country r0 /\
  exists c, Raw.CustomerID r0 = Some c /\ CustomerID r = to_int c.

(** The output holds the valid rows, in order, passed through; every other
    row is dropped. *)
Inductive sanitized_from : list RawRow -> list SaneRow -> Prop :=
| san_nil : sanitized_from [] []
| san_keep r0 r l0 l :
    valid_raw r0 -> passed_through r0 r -> sanitized_from l0 l ->
    sanitized_from (r0 :: l0) (r :: l)
| san_drop r0 l0 l :
    ~ valid_raw r0 -> sanitized_from l0 l -> sanitized_from (r0 :: l0) l.

(** [df_filtered] is the frame the aggregations receive when the script is
    run on the loaded table [df_raw] with the selection [selected_months]. *)
Definition filtered_view (df_raw : list RawRow) (selected_months : list Z)
  (df_filtered : list CleanRow) : Prop :=
  exists df w,
    preprocess df_raw = Some df /\
    time_filter df selected_months [] = (Ret df_filtered, w).

(** The order in which [nlargest] ranks the grouped products: larger sums
    first, equal sums by ascending description. *)
Definition ranks_before (a b : string * Z) : Prop :=
  snd a > snd b \/ (snd a = snd b /\ String.compare (fst a) (fst b) = Lt).

(** A matrix with seven rows and the twenty-four columns 0 to 23. *)
Definition dense_7x24 (m : Matrix) : Prop :=
  List.length (values m) = 7%nat /\
  columns m = map Z.of_nat (seq 0 24) /\
  Forall (fun row => List.length row = 24%nat) (values m).

(** The cell of weekday [i] and hour [h]. *)
Definition cell (df : list CleanRow) (i : nat) (h : Z) : Q :=
  Qsum (map TotalPrice (filter (fun r => has_day i r && (Hour r =? h)) df)).

Definition is_alert (e : event) : bool :=
  match e with
  | st_error _ | st_warning _ | st_sidebar_warning _ => true
  | _ => false
  end.

(** The events the aggregation stretch of the script emits. *)
Definition aggregate_events (observed : bool) (df_filtered : list CleanRow)
  : list event :=
  snd (aggregate observed df_filtered []).

(** The columns of the hour matrix: the hours that occur in the frame. *)
Definition hours (df : list CleanRow) : list Z :=
  sorted_unique Z.compare (map Hour df).

(** The cleaned frame of the worked example. *)
Definition example_df : list CleanRow :=
  derive [mkRow "536365" "LANTERN" 3 jan5_2011_10h (5 # 2) 17850 "Germany"].

(** What preprocessing guarantees of a cleaned row. *)
Definition derived_ok (r : CleanRow) : Prop :=
  (0 < TotalPrice r)%Q /\
  (exists i, (i < 7)%nat /\ DayOfWeek r = Some i) /\
  0 <= Hour r < 24.

(** The comparison [nlargest] makes on the summed quantities. *)
Definition qty_gtb (a b : string * Z) : bool := snd a >? snd b.

(** Ascending order of the group keys of a grouped series. *)
Definition key_before (a b : string * Z) : Prop :=
  String.compare (fst a) (fst b) = Lt.

(** [df_filtered.groupby('Description')['Quantity'].sum()] *)
Definition qty_by_product (df : list CleanRow) : list (string * Z) :=
  groupby_sum_Z String.compare (fun r : CleanRow => Description r)
                (fun r : CleanRow => Quantity r) df.

(** A loaded line selling [qty] units of [product] to a customer in
    [country] at the unit price [price], on the day of the worked example. *)
Definition raw_sale (product country : string) (qty price : Z) : RawRow :=
  Raw.mk "536365" product qty jan5_2011_10h (inject_Z price)
         (Some (17850 # 1)) country.

(** Eleven countries, the dominant one not among them. *)
Definition eleven_raw : list RawRow :=
  [ raw_sale "LANTERN" "Australia" 1 11;
    raw_sale "LANTERN" "Belgium" 1 10;
    raw_sale "LANTERN" "Cyprus" 1 9;
    raw_sale "LANTERN" "Denmark" 1 8;
    raw_sale "LANTERN" "EIRE" 1 7;
    raw_sale "LANTERN" "France" 1 6;
    raw_sale "LANTERN" "Germany" 1 5;
    raw_sale "LANTERN" "Iceland" 1 4;
    raw_sale "LANTERN" "Japan" 1 3;
    raw_sale "LANTERN" "Netherlands" 1 2;
    raw_sale "LANTERN" "Norway" 1 1 ].

Definition eleven_df : list CleanRow :=
  match preprocess eleven_raw with Some df => df | None => [] end.

(** Thirteen countries, the dominant one with the smallest revenue but
    one. *)
Definition thirteen_raw : list RawRow :=
  [ raw_sale "LANTERN" "United Kingdom" 1 2;
    raw_sale "LANTERN" "Portugal" 1 20;
    raw_sale "LANTERN" "Spain" 1 1;
    raw_sale "LANTERN" "Australia" 1 13;
    raw_sale "LANTERN" "Belgium" 1 12;
    raw_sale "LANTERN" "Cyprus" 1 11;
    raw_sale "LANTERN" "Denmark" 1 10;
    raw_sale "LANTERN" "EIRE" 1 9;
    raw_sale "LANTERN" "France" 1 8;
    raw_sale "LANTERN" "Germany" 1 7;
    raw_sale "LANTERN" "Iceland" 1 6;
    raw_sale "LANTERN" "Japan" 1 5;
    raw_sale "LANTERN" "Netherlands" 1 4 ].

Definition thirteen_df : list CleanRow :=
  match preprocess thirteen_raw with Some df => df | None => [] end.

(** The country example of the specification: the dominant country with a
    revenue of 1,000,000 and two others with 500 and 300. *)
Definition three_raw : list RawRow :=
  [ raw_sale "LANTERN" "France" 1 500;
    raw_sale "LANTERN" "United Kingdom" 1 1000000;
    raw_sale "LANTERN" "Germany" 1 300 ].

Definition three_df : list CleanRow :=
  match preprocess three_raw with Some df => df | None => [] end.

(** Two frames with the same rows in opposite orders, two products tied. *)
Definition tied_raw : list RawRow :=
  [ raw_sale "MUG" "France" 4 1; raw_sale "BOWL" "France" 4 1 ].

Definition tied_df : list CleanRow :=
  match preprocess tied_raw with Some df => df | None => [] end.

(** The comparison [nlargest] makes on summed revenues. *)
Definition rev_gtb (a b : string * Q) : bool := Qgtb (snd a) (snd b).

(** Ranking of grouped revenues: larger sums first, equal sums by
    ascending key. *)
Definition ranks_before_Q (a b : string * Q) : Prop :=
  (snd b < snd a)%Q \/
  ((snd a == snd b)%Q /\ String.compare (fst a) (fst b) = Lt).

Definition key_before_Q (a b : string * Q) : Prop :=
  String.compare (fst a) (fst b) = Lt.

(** [df_filtered.groupby('Description')['TotalPrice'].sum()] *)
Definition revenue_by_product (df : list CleanRow) : list (string * Q) :=
  groupby_sum_Q String.compare (fun r : CleanRow => Description r)
                TotalPrice df.

(** The exact total quantity of a product over a frame. *)
Definition summed_quantity (df : list CleanRow) (product : string) : Z :=
  Zsum (map (fun r : CleanRow => Quantity r)
            (filter (fun r : CleanRow => String.eqb (Description r) product)
                    df)).

(** Two lines of 2^62 units of one product and one line of one unit of
    another. *)
Definition overflow_raw : list RawRow :=
  [ raw_sale "BIG" "France" (2 ^ 62) 1;
    raw_sale "BIG" "France" (2 ^ 62) 1;
    raw_sale "SMALL" "France" 1 1 ].

Definition overflow_df : list CleanRow :=
  match preprocess overflow_raw with Some df => df | None => [] end.

(** ** Facts about ordered keys *)

(** The worked example of the specification: one row survives, dated a
    Wednesday of January 2011 at 10 o'clock. *)
Example example_preprocess :
  option_map (map (fun r : CleanRow => (Quantity r, YearMonth r, Month r,
                                        DayOfWeek r, Hour r)))
             (preprocess example_raw)
  = Some [(3, "2011-01"%string, 1, Some 2%nat, 10)].
Proof. vm_compute. reflexivity. Qed.


Section KeyFacts.
Context {K : Type} (cmp : K -> K -> comparison).
Hypothesis cmp_eq : forall a b, cmp a b = Eq <-> a = b.
Hypothesis cmp_antisym : forall a b, cmp a b = CompOpp (cmp b a).
Hypothesis cmp_trans :
  forall a b c, cmp a b = Lt -> cmp b c = Lt -> cmp a c = Lt.

Local Abbreviation ltk := (key_lt cmp).

Lemma key_eqb_true (a b : K) : key_eqb cmp a b = true <-> a = b.
Proof.
  unfold key_eqb. rewrite <- cmp_eq.
  destruct (cmp a b); split; congruence.
Qed.

Lemma key_eqb_refl (a : K) : key_eqb cmp a a = true.
Proof. apply key_eqb_true. reflexivity. Qed.

Lemma ltk_irrefl (a : K) : ~ ltk a a.
Proof.
  unfold key_lt. intros H.
  assert (E : cmp a a = Eq) by (apply cmp_eq; reflexivity).
  congruence.
Qed.

Lemma cmp_gt_lt (a b : K) : cmp a b = Gt -> cmp b a = Lt.
Proof.
  intros H. rewrite cmp_antisym, H. reflexivity.
Qed.

Lemma insert_key_In (k x : K) (ks : list K) :
  In x (insert_key cmp k ks) <-> x = k \/ In x ks.
Proof.
  induction ks as [|k' ks IH]; simpl.
  - intuition.
  - destruct (cmp k k') eqn:E; simpl.
    + apply cmp_eq in E. subst k'. intuition.
    + intuition.
    + rewrite IH. intuition.
Qed.

Lemma insert_key_sorted (k : K) (ks : list K) :
  StronglySorted ltk ks -> StronglySorted ltk (insert_key cmp k ks).
Proof.
  induction ks as [|k' ks IH]; simpl; intros S.
  - constructor; constructor.
  - inversion S as [|? ? S' F]; subst.
    destruct (cmp k k') eqn:E.
    + exact S.
    + constructor; [exact S|].
      constructor; [exact E|].
      eapply Forall_impl; [|exact F].
      intros c Hc. eapply cmp_trans; eassumption.
    + constructor; [apply IH; exact S'|].
      apply Forall_forall. intros x Hx.
      apply insert_key_In in Hx. destruct Hx as [->|Hx].
      * apply cmp_gt_lt. exact E.
      * rewrite Forall_forall in F. apply F. exact Hx.
Qed.

Lemma sorted_unique_In (x : K) (l : list K) :
  In x (sorted_unique cmp l) <-> In x l.
Proof.
  induction l as [|k l IH]; simpl.
  - reflexivity.
  - rewrite insert_key_In, IH. intuition.
Qed.

Lemma sorted_unique_sorted (l : list K) :
  StronglySorted ltk (sorted_unique cmp l).
Proof.
  induction l as [|k l IH]; simpl.
  - constructor.
  - apply insert_key_sorted. exact IH.
Qed.

Lemma sorted_NoDup (l : list K) : StronglySorted ltk l -> NoDup l.
Proof.
  induction 1 as [|a l S IH F]; constructor; [|exact IH].
  intros Hin. rewrite Forall_forall in F.
  exact (ltk_irrefl a (F a Hin)).
Qed.

Lemma sorted_unique_NoDup (l : list K) : NoDup (sorted_unique cmp l).
Proof. apply sorted_NoDup, sorted_unique_sorted. Qed.

(** Two ascending lists with the same members are the same list. *)
Lemma sorted_ext (l1 l2 : list K) :
  StronglySorted ltk l1 -> StronglySorted ltk l2 ->
  (forall x, In x l1 <-> In x l2) -> l1 = l2.
Proof.
  intros S1. revert l2.
  induction S1 as [|a l1 S1 IH F1]; intros l2 S2 Hm.
  - destruct l2 as [|b l2]; [reflexivity|].
    exfalso. apply (proj2 (Hm b)). left. reflexivity.
  - destruct S2 as [|b l2 S2 F2].
    + exfalso. apply (proj1 (Hm a)). left. reflexivity.
    + rewrite Forall_forall in F1, F2.
      assert (Hab : a = b).
      { destruct (proj1 (Hm a) (or_introl eq_refl)) as [E|Ha]; [auto|].
        destruct (proj2 (Hm b) (or_introl eq_refl)) as [E|Hb]; [auto|].
        exfalso. apply (ltk_irrefl a).
        apply (cmp_trans a b a); [apply F1, Hb | apply F2, Ha]. }
      subst b. f_equal. apply IH; [exact S2|].
      intros x. split; intros Hx.
      * destruct (proj1 (Hm x) (or_intror Hx)) as [E|Hx']; [|exact Hx'].
        subst x. exfalso. exact (ltk_irrefl a (F1 a Hx)).
      * destruct (proj2 (Hm x) (or_intror Hx)) as [E|Hx']; [|exact Hx'].
        subst x. exfalso. exact (ltk_irrefl a (F2 a Hx)).
Qed.

Lemma sorted_unique_ext (l l' : list K) :
  (forall x, In x l <-> In x l') ->
  sorted_unique cmp l = sorted_unique cmp l'.
Proof.
  intros H. apply sorted_ext; try apply sorted_unique_sorted.
  intros x. rewrite !sorted_unique_In. apply H.
Qed.

Lemma sorted_unique_of_sorted (l l' : list K) :
  StronglySorted ltk l' -> (forall x, In x l <-> In x l') ->
  sorted_unique cmp l = l'.
Proof.
  intros S H. apply sorted_ext; [apply sorted_unique_sorted|exact S|].
  intros x. rewrite sorted_unique_In. apply H.
Qed.
End KeyFacts.

(** The three key orders of the script: integers (months and hours),
    category codes and strings (descriptions, countries, month labels). *)

Lemma Z_cmp_trans (a b c : Z) :
  (a ?= b) = Lt -> (b ?= c) = Lt -> (a ?= c) = Lt.
Proof. rewrite !Z.compare_lt_iff. lia. Qed.

Lemma nat_cmp_trans (a b c : nat) :
  (a ?= b)%nat = Lt -> (b ?= c)%nat = Lt -> (a ?= c)%nat = Lt.
Proof. rewrite !Nat.compare_lt_iff. lia. Qed.

Lemma string_cmp_trans (a b c : string) :
  String.compare a b = Lt -> String.compare b c = Lt ->
  String.compare a c = Lt.
Proof.
  intros H1 H2.
  apply String_as_OT.cmp_lt.
  apply String_as_OT.lt_trans with b; apply String_as_OT.cmp_lt; assumption.
Qed.

Lemma Z_cmp_antisym (a b : Z) : (a ?= b) = CompOpp (b ?= a).
Proof. apply Z.compare_antisym. Qed.

Lemma nat_cmp_antisym (a b : nat) : (a ?= b)%nat = CompOpp (b ?= a)%nat.
Proof. apply Nat.compare_antisym. Qed.

Ltac Z_order :=
  first [exact Z.compare_eq_iff | exact Z_cmp_antisym | exact Z_cmp_trans].

Ltac nat_order :=
  first [exact Nat.compare_eq_iff | exact nat_cmp_antisym
        | exact nat_cmp_trans].

Ltac string_order :=
  first [exact String_as_OT.cmp_eq | exact String_as_OT.cmp_antisym
        | exact string_cmp_trans].

Lemma Z_keys_In (x : Z) (l : list Z) :
  In x (sorted_unique Z.compare l) <-> In x l.
Proof. apply sorted_unique_In; Z_order. Qed.

Lemma Z_keys_sorted (l : list Z) :
  StronglySorted (key_lt Z.compare) (sorted_unique Z.compare l).
Proof. apply sorted_unique_sorted; Z_order. Qed.

Lemma Z_keys_NoDup (l : list Z) : NoDup (sorted_unique Z.compare l).
Proof. apply sorted_unique_NoDup; Z_order. Qed.

Lemma string_keys_In (x : string) (l : list string) :
  In x (sorted_unique String.compare l) <-> In x l.
Proof. apply sorted_unique_In; string_order. Qed.

Lemma string_keys_sorted (l : list string) :
  StronglySorted (key_lt String.compare) (sorted_unique String.compare l).
Proof. apply sorted_unique_sorted; string_order. Qed.

Lemma string_keys_ext (l l' : list string) :
  (forall x, In x l <-> In x l') ->
  sorted_unique String.compare l = sorted_unique String.compare l'.
Proof. apply sorted_unique_ext; string_order. Qed.

Lemma string_key_eqb_true (a b : string) :
  key_eqb String.compare a b = true <-> a = b.
Proof. apply key_eqb_true; string_order. Qed.

(** ** The Sanitizer *)

Lemma Qgtb_true (a b : Q) : Qgtb a b = true <-> (b < a)%Q.
Proof.
  unfold Qgtb. rewrite (Qgt_alt a b).
  destruct (a ?= b)%Q; split; congruence.
Qed.

Lemma positive_mask_true (r : SaneRow) :
  positive_mask r = true <-> Quantity r > 0 /\ (0 < UnitPrice r)%Q.
Proof.
  unfold positive_mask.
  rewrite andb_true_iff, Qgtb_true, Z.gtb_gt. reflexivity.
Qed.

Lemma astype_int_row_passed (r0 : RawRow) (r : SaneRow) :
  astype_int_row r0 = Some r -> passed_through r0 r.
Proof.
  unfold astype_int_row, passed_through.
  destruct (Raw.CustomerID r0) as [c|] eqn:E; [|discriminate].
  intros H. injection H as <-. simpl.
  repeat split. exists c. split; reflexivity.
Qed.

(** After [dropna] the integer conversion cannot raise, and the Sanitizer
    as a whole keeps exactly the valid rows. *)
Lemma sanitize_steps (df_raw : list RawRow) :
  exists mid,
    astype_int_CustomerID (dropna_CustomerID df_raw) = Some mid /\
    sanitized_from df_raw (drop_nonpositive mid).
Proof.
  induction df_raw as [|r0 l IH].
  - exists []. split; [reflexivity|constructor].
  - destruct IH as (mid & Hmid & Hs).
    unfold dropna_CustomerID in *. simpl.
    destruct (Raw.CustomerID r0) as [c|] eqn:Ec; simpl.
    + destruct (astype_int_row r0) as [r|] eqn:Er.
      2:{ unfold astype_int_row in Er. rewrite Ec in Er. discriminate. }
      rewrite Hmid. exists (r :: mid). split; [reflexivity|].
      pose proof (astype_int_row_passed _ _ Er) as Hp.
      unfold drop_nonpositive. simpl.
      destruct (positive_mask r) eqn:Em.
      * apply positive_mask_true in Em.
        destruct Hp as (H1 & H2 & H3 & H4 & H5 & H6 & H7).
        apply san_keep; [|repeat split; assumption|exact Hs].
        unfold valid_raw. rewrite <- H3, <- H5, Ec.
        split; [discriminate|exact Em].
      * apply san_drop; [|exact Hs].
        intros (_ & Hq & Hu).
        destruct Hp as (H1 & H2 & H3 & H4 & H5 & H6 & H7).
        assert (positive_mask r = true);
          [apply positive_mask_true; rewrite H3, H5; auto|congruence].
    + exists mid. split; [exact Hmid|].
      apply san_drop; [|exact Hs].
      intros (Hn & _). apply Hn. exact Ec.
Qed.

Lemma sanitize_total (df_raw : list RawRow) :
  exists df, sanitize df_raw = Some df.
Proof.
  destruct (sanitize_steps df_raw) as (mid & Hmid & _).
  unfold sanitize. rewrite Hmid. eexists. reflexivity.
Qed.

Lemma sanitize_positive (df_raw : list RawRow) (df : list SaneRow) :
  sanitize df_raw = Some df ->
  Forall (fun r => Quantity r > 0 /\ (0 < UnitPrice r)%Q) df.
Proof.
  unfold sanitize.
  destruct (astype_int_CustomerID (dropna_CustomerID df_raw)) as [mid|];
    [|discriminate].
  intros H. injection H as <-.
  apply Forall_forall. intros r Hr.
  unfold drop_nonpositive in Hr. apply filter_In in Hr.
  apply positive_mask_true. apply Hr.
Qed.

(** C3. On every loaded table the Sanitizer returns a frame; each of its
    rows has a positive quantity, a positive unit price and an integer
    customer identifier obtained from a non-missing one; the frame holds, in
    order, exactly the loaded rows with a customer identifier, a positive
    quantity and a positive unit price, every other row being dropped; and a
    kept row has the field values of the loaded row, the customer identifier
    converted to an integer. *)
Theorem sanitizer_output_invariant (df_raw : list RawRow) :
  exists df,
    sanitize df_raw = Some df /\
    Forall (fun r => Quantity r > 0 /\ (0 < UnitPrice r)%Q) df /\
    sanitized_from df_raw df.
Proof.
  destruct (sanitize_steps df_raw) as (mid & Hmid & Hs).
  exists (drop_nonpositive mid).
  unfold sanitize. rewrite Hmid.
  split; [reflexivity|]. split; [|exact Hs].
  apply (sanitize_positive df_raw).
  unfold sanitize. rewrite Hmid. reflexivity.
Qed.

(** ** The derived columns *)

Lemma preprocess_total (df_raw : list RawRow) :
  exists sane,
    sanitize df_raw = Some sane /\ preprocess df_raw = Some (derive sane).
Proof.
  destruct (sanitize_total df_raw) as (sane & Hs).
  exists sane. unfold preprocess. rewrite Hs. split; reflexivity.
Qed.

(** ** The time filter and the empty-result gate *)

Lemma time_filter_empty_selection (df : list CleanRow) (log : list event) :
  time_filter df [] log
  = (Ret df, log ++ [st_sidebar_warning msg_all_months]).
Proof. reflexivity. Qed.

Lemma time_filter_selection (df : list CleanRow) (m : Z) (ms : list Z)
  (log : list event) :
  time_filter df (m :: ms) log
  = (Ret (filter (fun r => isin (m :: ms) (Month r)) df), log).
Proof. reflexivity. Qed.

(** The filter emits the same events whatever was logged before it. *)
Lemma time_filter_log (df : list CleanRow) (sel : list Z) (log : list event) :
  time_filter df sel log
  = (fst (time_filter df sel []), log ++ snd (time_filter df sel [])).
Proof.
  destruct sel as [|m ms].
  - reflexivity.
  - rewrite !time_filter_selection. simpl. rewrite app_nil_r. reflexivity.
Qed.

Lemma time_filter_returns (df : list CleanRow) (sel : list Z) :
  exists out w,
    time_filter df sel [] = (Ret out, w) /\
    existsb is_aggregate w = false /\
    (sel = [] -> out = df) /\
    (sel <> [] -> out = filter (fun r => isin sel (Month r)) df /\ w = []).
Proof.
  destruct sel as [|m ms].
  - exists df, [st_sidebar_warning msg_all_months].
    repeat split; try reflexivity; intros; congruence.
  - exists (filter (fun r => isin (m :: ms) (Month r)) df), [].
    repeat split; try reflexivity; intros; congruence.
Qed.

Lemma aggregate_runs (observed : bool)
  (df_filtered : list CleanRow) (log : list event) :
  aggregate observed df_filtered log = (Ret tt, log ++ aggregate_events observed df_filtered).
Proof.
  unfold aggregate_events, aggregate, bind, emit. simpl.
  repeat rewrite <- app_assoc. reflexivity.
Qed.

Lemma aggregate_events_are_aggregates (observed : bool)
  (df_filtered : list CleanRow) :
  forallb is_aggregate (aggregate_events observed df_filtered) = true.
Proof. reflexivity. Qed.

Lemma gate_halts (observed : bool) (log : list event) :
  (empty_gate [] ;; aggregate observed []) log
  = (Stopped, log ++ [st_warning msg_no_data]).
Proof. reflexivity. Qed.

Lemma gate_passes (observed : bool)
  (r : CleanRow) (rest : list CleanRow) (log : list event) :
  (empty_gate (r :: rest) ;; aggregate observed (r :: rest)) log
  = (Ret tt, log ++ aggregate_events observed (r :: rest)).
Proof.
  unfold bind, empty_gate. simpl. apply aggregate_runs.
Qed.

(** A run on a table that was found, in terms of what the filter returns. *)
Lemma run_filtered (observed : bool) (df_raw : list RawRow) (sel : list Z)
  (df out : list CleanRow) (w : list event) :
  preprocess df_raw = Some df ->
  time_filter df sel [] = (Ret out, w) ->
  run observed (Some df_raw) sel
  = (empty_gate out ;; aggregate observed out)
      (st_sidebar_multiselect (month_options df) (month_options df) :: w).
Proof.
  intros Hp Ht.
  unfold run, main, load_data, preprocessing.
  unfold bind at 1. unfold ret at 1.
  unfold bind at 1. rewrite Hp. unfold ret at 1.
  unfold bind at 1. unfold emit at 1. simpl app.
  unfold bind at 1. rewrite time_filter_log, Ht. reflexivity.
Qed.

(** C6. On every cleaned dataset the filter applied with an empty month
    selection returns the whole dataset (the same rows, so the same
    multiset) and logs the sidebar warning of the fallback branch; in a run
    of the script that warning is part of what the caller sees. *)
Theorem empty_selection_returns_everything (observed : bool)
  (df_raw : list RawRow) :
  exists df,
    preprocess df_raw = Some df /\
    (forall log, exists out,
        time_filter df [] log
        = (Ret out, log ++ [st_sidebar_warning msg_all_months]) /\
        Permutation out df) /\
    filtered_view df_raw [] df /\
    In (st_sidebar_warning msg_all_months) (snd (run observed (Some df_raw) [])).
Proof.
  destruct (preprocess_total df_raw) as (sane & _ & Hp).
  exists (derive sane). split; [exact Hp|]. split; [|split].
  - intros log. exists (derive sane).
    split; [apply time_filter_empty_selection|apply Permutation_refl].
  - exists (derive sane), [st_sidebar_warning msg_all_months].
    split; [exact Hp|reflexivity].
  - rewrite (run_filtered observed _ _ _ _ _ Hp (time_filter_empty_selection _ _)).
    destruct (derive sane) as [|r rest].
    + rewrite gate_halts. simpl. auto.
    + rewrite gate_passes. simpl. auto.
Qed.

(** C7. Whenever the filter returns no row, the run logs the warning of the
    empty-result gate and is halted by [st.stop()]: it ends neither with an
    exception nor with an error message, and no metric or chart, that is no
    aggregate, is part of the run. *)
Theorem empty_filter_result_halts (observed : bool)
  (df_raw : list RawRow) (sel : list Z)
  (df : list CleanRow) (w : list event) :
  preprocess df_raw = Some df ->
  time_filter df sel [] = (Ret [], w) ->
  run observed (Some df_raw) sel
  = (Stopped,
     st_sidebar_multiselect (month_options df) (month_options df)
       :: w ++ [st_warning msg_no_data]) /\
  existsb is_aggregate (snd (run observed (Some df_raw) sel)) = false.
Proof.
  intros Hp Ht.
  rewrite (run_filtered observed _ _ _ _ _ Hp Ht), gate_halts.
  split; [reflexivity|].
  destruct (time_filter_returns df sel) as (out & w' & Ht' & Hw & _).
  rewrite Ht in Ht'. injection Ht' as _ <-.
  simpl. rewrite existsb_app, Hw. reflexivity.
Qed.

Lemma empty_filter_result_halts_witness :
  run false (Some example_raw) [2]
  = (Stopped, [st_sidebar_multiselect [1] [1]; st_warning msg_no_data]) /\
  existsb is_aggregate (snd (run false (Some example_raw) [2])) = false.
Proof.
  apply (empty_filter_result_halts false example_raw [2]
           example_df []).
  - vm_compute. reflexivity.
  - vm_compute. reflexivity.
Defined.

(** A non-empty filtered frame is aggregated to the end. *)
Lemma nonempty_filter_result_aggregates (observed : bool)
  (df_raw : list RawRow) (sel : list Z)
  (df : list CleanRow) (r : CleanRow) (rest : list CleanRow)
  (w : list event) :
  preprocess df_raw = Some df ->
  time_filter df sel [] = (Ret (r :: rest), w) ->
  run observed (Some df_raw) sel
  = (Ret tt,
     st_sidebar_multiselect (month_options df) (month_options df)
       :: w ++ aggregate_events observed (r :: rest)).
Proof.
  intros Hp Ht.
  rewrite (run_filtered observed _ _ _ _ _ Hp Ht), gate_passes. reflexivity.
Qed.

Lemma offered_month_has_row (df : list CleanRow) (sel : list Z) (m : Z) :
  In m sel -> In m (month_options df) ->
  exists r, In r (filter (fun r => isin sel (Month r)) df).
Proof.
  intros Hs Ho. unfold month_options in Ho.
  apply (proj1 (Z_keys_In _ _)) in Ho. apply in_map_iff in Ho.
  destruct Ho as (r & Hm & Hr). exists r.
  apply filter_In. split; [exact Hr|].
  unfold isin. apply existsb_exists. exists m.
  split; [exact Hs|]. apply Z.eqb_eq. exact Hm.
Qed.

(** C10. The selector offers the distinct months of the cleaned dataset.
    For a selection drawn from them: a non-empty selection yields a
    non-empty filtered frame and the run is not halted; and the run is
    halted by the empty-result gate exactly when the cleaned dataset itself
    is empty. *)
Theorem offered_selection_never_empties (observed : bool) (df_raw : list RawRow)
  (sel : list Z) (df : list CleanRow) :
  preprocess df_raw = Some df ->
  incl sel (month_options df) ->
  (sel <> [] ->
   exists r rest, time_filter df sel [] = (Ret (r :: rest), []) /\
                  fst (run observed (Some df_raw) sel) = Ret tt) /\
  (fst (run observed (Some df_raw) sel) = Stopped <-> df = []).
Proof.
  intros Hp Hincl.
  assert (Hne : sel <> [] ->
                exists r rest,
                  time_filter df sel [] = (Ret (r :: rest), []) /\
                  fst (run observed (Some df_raw) sel) = Ret tt).
  { intros Hs. destruct sel as [|m ms]; [congruence|].
    destruct (offered_month_has_row df (m :: ms) m) as (r0 & Hr0).
    { left. reflexivity. }
    { apply Hincl. left. reflexivity. }
    rewrite time_filter_selection.
    destruct (filter (fun r => isin (m :: ms) (Month r)) df)
      as [|r rest] eqn:Ef; [contradiction|].
    exists r, rest. split; [reflexivity|].
    erewrite nonempty_filter_result_aggregates;
      [reflexivity|exact Hp|rewrite time_filter_selection, Ef; reflexivity]. }
  split; [exact Hne|].
  destruct sel as [|m ms].
  - rewrite (run_filtered observed _ _ _ _ _ Hp (time_filter_empty_selection _ _)).
    destruct df as [|r rest].
    + rewrite gate_halts. simpl. split; reflexivity.
    + rewrite gate_passes. simpl. split; discriminate.
  - destruct Hne as (r & rest & _ & Hrun); [discriminate|].
    rewrite Hrun. split; [discriminate|].
    intros ->. exfalso.
    apply (Hincl m). left. reflexivity.
Qed.

Lemma offered_selection_never_empties_witness :
  ([1] <> [] ->
   exists r rest,
     time_filter example_df [1] [] = (Ret (r :: rest), []) /\
     fst (run false (Some example_raw) [1]) = Ret tt) /\
  (fst (run false (Some example_raw) [1]) = Stopped <-> example_df = []).
Proof.
  apply (offered_selection_never_empties false example_raw [1]).
  - vm_compute. reflexivity.
  - intros m Hm. vm_compute. exact Hm.
Defined.

(** ** Sums of non-negative amounts *)

Lemma Qsum_nonneg (l : list Q) :
  Forall (fun q => 0 <= q)%Q l -> (0 <= Qsum l)%Q.
Proof.
  induction 1 as [|a l Ha _ IH]; simpl.
  - apply Qle_refl.
  - replace 0%Q with (0 + 0)%Q by reflexivity.
    apply Qplus_le_compat; assumption.
Qed.

Lemma filter_perm {A : Type} (p : A -> bool) (l l' : list A) :
  Permutation l l' -> Permutation (filter p l) (filter p l').
Proof.
  induction 1 as [|a l l' _ IH|a b l|l1 l2 l3 _ IH1 _ IH2]; simpl.
  - constructor.
  - destruct (p a); [constructor|]; exact IH.
  - destruct (p a), (p b); try apply Permutation_refl. constructor.
  - eapply Permutation_trans; eassumption.
Qed.

(** ** Weekday totals *)

Lemma occurs_day_spec (df : list CleanRow) (i : nat) :
  occurs_day df i = true <-> exists r, In r df /\ DayOfWeek r = Some i.
Proof.
  unfold occurs_day. rewrite existsb_exists.
  split; intros (r & Hr & H); exists r; split; try exact Hr.
  - unfold has_day in H. destruct (DayOfWeek r) as [j|]; [|discriminate].
    apply Nat.eqb_eq in H. congruence.
  - unfold has_day. rewrite H. apply Nat.eqb_refl.
Qed.

Lemma occurs_day_perm (df df' : list CleanRow) (i : nat) :
  Permutation df df' -> occurs_day df i = occurs_day df' i.
Proof.
  intros Hp.
  destruct (occurs_day df i) eqn:E, (occurs_day df' i) eqn:E';
    try reflexivity; exfalso.
  - apply occurs_day_spec in E. destruct E as (r & Hr & Hd).
    assert (occurs_day df' i = true).
    { apply occurs_day_spec. exists r. split; [|exact Hd].
      apply (Permutation_in r Hp Hr). }
    congruence.
  - apply occurs_day_spec in E'. destruct E' as (r & Hr & Hd).
    assert (occurs_day df i = true).
    { apply occurs_day_spec. exists r. split; [|exact Hd].
      apply (Permutation_in r (Permutation_sym Hp) Hr). }
    congruence.
Qed.

Lemma group_days_perm (observed : bool) (df df' : list CleanRow) :
  Permutation df df' -> group_days observed df = group_days observed df'.
Proof.
  intros Hp. unfold group_days. destruct observed; [|reflexivity].
  apply filter_ext. intros i. apply occurs_day_perm. exact Hp.
Qed.

Lemma sorted_filter {A : Type} (R : A -> A -> Prop) (p : A -> bool)
  (l : list A) :
  StronglySorted R l -> StronglySorted R (filter p l).
Proof.
  induction 1 as [|a l S IH F]; simpl; [constructor|].
  destruct (p a); [|exact IH]. constructor; [exact IH|].
  rewrite Forall_forall in *. intros x Hx.
  apply filter_In in Hx. apply F. apply Hx.
Qed.

Lemma sorted_weaken {A : Type} (R R' : A -> A -> Prop) (l : list A) :
  (forall a b, R a b -> R' a b) ->
  StronglySorted R l -> StronglySorted R' l.
Proof.
  intros H. induction 1 as [|a l S IH F]; constructor; [exact IH|].
  eapply Forall_impl; [|exact F]. intros b. apply H.
Qed.

Lemma day_codes_ascending : StronglySorted lt day_codes.
Proof.
  repeat (constructor; [|repeat constructor; lia]). constructor.
Qed.

Lemma group_days_ascending (observed : bool) (df : list CleanRow) :
  StronglySorted lt (group_days observed df).
Proof.
  unfold group_days. destruct observed.
  - apply sorted_filter. exact day_codes_ascending.
  - exact day_codes_ascending.
Qed.

Lemma group_days_In (observed : bool) (df : list CleanRow) (i : nat) :
  In i (group_days observed df)
  <-> (i < 7)%nat /\ (observed = true -> occurs_day df i = true).
Proof.
  assert (Hc : In i day_codes <-> (i < 7)%nat).
  { unfold day_codes. rewrite in_seq. simpl. lia. }
  unfold group_days. destruct observed.
  - rewrite filter_In, Hc. intuition.
  - rewrite Hc. intuition discriminate.
Qed.

Lemma day_label_inj (i j : nat) :
  (i < 7)%nat -> (j < 7)%nat -> day_label i = day_label j -> i = j.
Proof.
  intros Hi Hj.
  do 7 (destruct i as [|i]; [do 7 (destruct j as [|j];
                                   [try reflexivity; discriminate|]); lia|]).
  lia.
Qed.

Lemma group_labels_NoDup (observed : bool) (df : list CleanRow) :
  NoDup (map day_label (group_days observed df)).
Proof.
  pose proof (group_days_ascending observed df) as S.
  assert (F : Forall (fun i => (i < 7)%nat) (group_days observed df)).
  { apply Forall_forall. intros i Hi. apply group_days_In in Hi. apply Hi. }
  induction S as [|a l S IH Ha]; simpl; [constructor|].
  inversion F as [|? ? Fa Fl]; subst.
  constructor; [|apply IH; exact Fl].
  intros Hin. apply in_map_iff in Hin. destruct Hin as (j & Hj & Hjl).
  rewrite Forall_forall in Ha, Fl.
  apply day_label_inj in Hj; [|apply Fl; exact Hjl|exact Fa].
  subst j. specialize (Ha a Hjl). lia.
Qed.

Lemma daily_sales_labels (observed : bool) (df : list CleanRow) :
  map fst (daily_sales observed df) = map day_label (group_days observed df).
Proof. unfold daily_sales. rewrite map_map. reflexivity. Qed.

Lemma no_day_no_rows (df : list CleanRow) (i : nat) :
  (forall r, In r df -> DayOfWeek r <> Some i) -> filter (has_day i) df = [].
Proof.
  intros H. induction df as [|r df IH]; [reflexivity|]. simpl.
  assert (E : has_day i r = false).
  { unfold has_day. destruct (DayOfWeek r) as [j|] eqn:Ej; [|reflexivity].
    apply Nat.eqb_neq. intros ->. apply (H r); [left; reflexivity|exact Ej]. }
  rewrite E. apply IH. intros r' Hr'. apply H. right. exact Hr'.
Qed.

(** C5, as the script has it.  On every frame, and whichever default the
    installed pandas gives to [observed], the weekday totals list weekdays
    in the order Monday to Sunday, each at most once, each with the sum of
    [TotalPrice] over the rows of that weekday, and reordering the rows of
    the frame changes neither the weekdays listed nor their order.  Where
    the default is [observed=False] all seven weekdays are listed and a
    weekday without rows has a zero-valued entry; where it is
    [observed=True] exactly the weekdays that occur in the frame are
    listed. *)
Theorem weekday_totals_canonical (observed : bool) (df : list CleanRow) :
  (exists codes,
     StronglySorted lt codes /\
     Forall (fun i => (i < 7)%nat) codes /\
     daily_sales observed df
     = map (fun i => (nth i day_order EmptyString,
                      Qsum (map TotalPrice (filter (has_day i) df)))) codes /\
     (observed = false -> codes = [0; 1; 2; 3; 4; 5; 6]%nat) /\
     (observed = true ->
      forall i, In i codes <->
                (i < 7)%nat /\ exists r, In r df /\ DayOfWeek r = Some i)) /\
  NoDup (map fst (daily_sales observed df)) /\
  (observed = false ->
   map fst (daily_sales observed df)
   = ["Monday"; "Tuesday"; "Wednesday"; "Thursday"; "Friday"; "Saturday";
      "Sunday"]%string /\
   forall i, (i < 7)%nat ->
     (forall r, In r df -> DayOfWeek r <> Some i) ->
     nth i (daily_sales observed df) (EmptyString, 1%Q)
     = (nth i day_order EmptyString, 0%Q)) /\
  (forall df', Permutation df df' ->
     map fst (daily_sales observed df') = map fst (daily_sales observed df)).
Proof.
  split.
  { exists (group_days observed df).
    split; [apply group_days_ascending|]. split.
    { apply Forall_forall. intros i Hi. apply group_days_In in Hi. apply Hi. }
    split; [reflexivity|]. split.
    { intros ->. reflexivity. }
    intros -> i. rewrite group_days_In, <- occurs_day_spec. intuition. }
  split.
  { rewrite daily_sales_labels. apply group_labels_NoDup. }
  split.
  { intros ->. split; [reflexivity|].
    intros i Hi Hnone. unfold daily_sales, group_days.
    assert (E : nth i (map (fun i => (day_label i,
                   Qsum (map TotalPrice (filter (has_day i) df)))) day_codes)
                  (EmptyString, 1%Q)
                = (day_label i, Qsum (map TotalPrice (filter (has_day i) df)))).
    { do 7 (destruct i as [|i]; [reflexivity|]). lia. }
    rewrite E, (no_day_no_rows df i Hnone). reflexivity. }
  intros df' Hp. rewrite !daily_sales_labels.
  rewrite (group_days_perm observed df df' Hp). reflexivity.
Qed.

Lemma weekday_totals_canonical_witness :
  nth 0 (daily_sales false example_df) (EmptyString, 1%Q)
  = ("Monday"%string, 0%Q) /\
  map fst (daily_sales true (rev tied_df)) = map fst (daily_sales true tied_df).
Proof.
  pose proof (weekday_totals_canonical false example_df)
    as (_ & _ & Hz & _).
  pose proof (weekday_totals_canonical true tied_df) as (_ & _ & _ & Hp).
  split.
  - apply (proj2 (Hz eq_refl) 0%nat); [lia|].
    intros r [<-|[]]. vm_compute. discriminate.
  - apply Hp. apply Permutation_rev.
Defined.

(** C5, as stated, fails where the installed pandas groups with
    [observed=True]: on the worked example the filtered frame holds one
    row, of a Wednesday, and the weekday totals hold the one entry of
    Wednesday instead of seven entries. *)
Lemma weekday_totals_list_observed_days_only :
  filtered_view example_raw [1] example_df /\
  daily_sales true example_df = [("Wednesday"%string, 15 # 2)] /\
  map fst (daily_sales true example_df) <> day_order.
Proof.
  split; [exists example_df, []; split; vm_compute; reflexivity|].
  split; [vm_compute; reflexivity|].
  vm_compute. discriminate.
Qed.

(** ** The weekday category *)

Lemma dt_dayofweek_range (t : Z) : 0 <= dt_dayofweek t < 7.
Proof. unfold dt_dayofweek. apply Z.mod_pos_bound. lia. Qed.

Lemma dt_hour_range (t : Z) : 0 <= dt_hour t < 24.
Proof.
  unfold dt_hour.
  assert (H : 0 <= t mod ns_per_day < ns_per_day)
    by (apply Z.mod_pos_bound; reflexivity).
  split.
  - apply Z.div_pos; [lia|reflexivity].
  - apply Z.div_lt_upper_bound; [reflexivity|].
    change (ns_per_hour * 24) with ns_per_day. lia.
Qed.

Lemma day_name_is_category (t : Z) :
  exists i, (i < 7)%nat /\
            Categorical day_order (dt_day_name t) = Some i /\
            day_label i = dt_day_name t /\
            Z.of_nat i = dt_dayofweek t.
Proof.
  pose proof (dt_dayofweek_range t) as Hr.
  unfold dt_day_name.
  exists (Z.to_nat (dt_dayofweek t)).
  rewrite Z2Nat.id by lia.
  assert (Hn : (Z.to_nat (dt_dayofweek t) < 7)%nat) by lia.
  destruct (Z.to_nat (dt_dayofweek t)) as [|n].
  { repeat split; try reflexivity; lia. }
  do 6 (destruct n as [|n]; [repeat split; try reflexivity; lia|]).
  lia.
Qed.

Lemma Categorical_outside (cats : list string) (label : string) :
  ~ In label cats -> Categorical cats label = None.
Proof.
  induction cats as [|c cats IH]; intros H; simpl; [reflexivity|].
  destruct (String.eqb c label) eqn:E.
  - apply String.eqb_eq in E. exfalso. apply H. left. exact E.
  - rewrite IH; [reflexivity|]. intros Hin. apply H. right. exact Hin.
Qed.

(** Every derived row carries a weekday category. *)
Lemma derive_row_day (r : SaneRow) :
  exists i, (i < 7)%nat /\ DayOfWeek (derive_row r) = Some i /\
            day_label i = dt_day_name (InvoiceDate r).
Proof.
  destruct (day_name_is_category (InvoiceDate r)) as (i & Hi & Hc & Hl & _).
  exists i. repeat split; assumption.
Qed.

Lemma preprocess_derived (df_raw : list RawRow) (df : list CleanRow) :
  preprocess df_raw = Some df ->
  Forall (fun r : CleanRow => r = derive_row (base r)) df.
Proof.
  unfold preprocess.
  destruct (sanitize df_raw) as [sane|]; [|discriminate].
  intros H. injection H as <-. unfold derive.
  apply Forall_forall. intros r Hr.
  apply in_map_iff in Hr. destruct Hr as (r0 & <- & _). reflexivity.
Qed.




(** ** The weekday by hour matrix *)

Lemma lookup2_app (i : nat) (h : Z) (s1 s2 : list ((nat * Z) * Q)) :
  lookup2 i h (s1 ++ s2)
  = match lookup2 i h s1 with
    | Some v => Some v
    | None => lookup2 i h s2
    end.
Proof.
  unfold lookup2. induction s1 as [|e s1 IH]; simpl; [reflexivity|].
  destruct (Nat.eqb (fst (fst e)) i && (snd (fst e) =? h)); [reflexivity|].
  exact IH.
Qed.

Lemma lookup2_other_day (i j : nat) (h : Z) (v : Z -> Q) (hs : list Z) :
  i <> j -> lookup2 i h (map (fun h' => ((j, h'), v h')) hs) = None.
Proof.
  intros Hij. unfold lookup2.
  induction hs as [|h' hs IH]; simpl; [reflexivity|].
  assert (E : Nat.eqb j i = false) by (apply Nat.eqb_neq; congruence).
  rewrite E. simpl. exact IH.
Qed.

Lemma lookup2_same_day (i : nat) (h : Z) (v : Z -> Q) (hs : list Z) :
  In h hs -> lookup2 i h (map (fun h' => ((i, h'), v h')) hs) = Some (v h).
Proof.
  unfold lookup2. induction hs as [|h' hs IH]; simpl; [contradiction|].
  intros Hin. rewrite Nat.eqb_refl. simpl.
  destruct (h' =? h) eqn:E.
  - apply Z.eqb_eq in E. subst h'. reflexivity.
  - destruct Hin as [->|Hin]; [rewrite Z.eqb_refl in E; discriminate|].
    apply IH. exact Hin.
Qed.

Lemma lookup2_same_day_miss (i : nat) (h : Z) (v : Z -> Q) (hs : list Z) :
  ~ In h hs -> lookup2 i h (map (fun h' => ((i, h'), v h')) hs) = None.
Proof.
  unfold lookup2. induction hs as [|h' hs IH]; simpl; [reflexivity|].
  intros Hn. rewrite Nat.eqb_refl. simpl.
  destruct (h' =? h) eqn:E.
  - apply Z.eqb_eq in E. exfalso. apply Hn. left. exact E.
  - apply IH. intros Hin. apply Hn. right. exact Hin.
Qed.

(** A pair that is listed in the series is found in it, with its value. *)
Lemma lookup2_listed (codes : list nat) (hs : nat -> list Z)
  (v : nat -> Z -> Q) (i : nat) (h : Z) :
  In i codes -> In h (hs i) ->
  lookup2 i h
    (flat_map (fun j => map (fun h' => ((j, h'), v j h')) (hs j)) codes)
  = Some (v i h).
Proof.
  intros Hi Hh. induction codes as [|j codes IH]; simpl; [contradiction|].
  rewrite lookup2_app.
  destruct (Nat.eq_dec i j) as [->|Hij].
  - rewrite (lookup2_same_day j h (v j) (hs j) Hh). reflexivity.
  - rewrite (lookup2_other_day i j h (v j) (hs j) Hij).
    apply IH. destruct Hi as [E|Hi]; [congruence|exact Hi].
Qed.

(** A pair that is not listed is not found. *)
Lemma lookup2_unlisted (codes : list nat) (hs : nat -> list Z)
  (v : nat -> Z -> Q) (i : nat) (h : Z) :
  ~ In h (hs i) ->
  lookup2 i h
    (flat_map (fun j => map (fun h' => ((j, h'), v j h')) (hs j)) codes)
  = None.
Proof.
  intros Hh. induction codes as [|j codes IH]; simpl; [reflexivity|].
  rewrite lookup2_app.
  destruct (Nat.eq_dec i j) as [->|Hij].
  - rewrite (lookup2_same_day_miss j h (v j) (hs j) Hh). exact IH.
  - rewrite (lookup2_other_day i j h (v j) (hs j) Hij). exact IH.
Qed.

Lemma listed_level0 (codes : list nat) (hs : nat -> list Z)
  (v : nat -> Z -> Q) (x : nat) :
  In x (map (fun e => fst (fst e))
          (flat_map (fun j => map (fun h' => ((j, h'), v j h')) (hs j)) codes))
  <-> In x codes /\ hs x <> [].
Proof.
  rewrite in_map_iff. split.
  - intros (e & <- & He). apply in_flat_map in He.
    destruct He as (j & Hj & He). apply in_map_iff in He.
    destruct He as (h' & <- & Hh). simpl. split; [exact Hj|].
    intros E. rewrite E in Hh. exact Hh.
  - intros (Hx & Hne). destruct (hs x) as [|h0 l] eqn:E; [congruence|].
    exists ((x, h0), v x h0). split; [reflexivity|].
    apply in_flat_map. exists x. split; [exact Hx|].
    rewrite E. left. reflexivity.
Qed.

Lemma listed_level1 (codes : list nat) (hs : nat -> list Z)
  (v : nat -> Z -> Q) (x : Z) :
  In x (map (fun e => snd (fst e))
          (flat_map (fun j => map (fun h' => ((j, h'), v j h')) (hs j)) codes))
  <-> exists i, In i codes /\ In x (hs i).
Proof.
  rewrite in_map_iff. split.
  - intros (e & <- & He). apply in_flat_map in He.
    destruct He as (j & Hj & He). apply in_map_iff in He.
    destruct He as (h' & <- & Hh). simpl. exists j. split; assumption.
  - intros (i & Hi & Hx).
    exists ((i, x), v i x). split; [reflexivity|].
    apply in_flat_map. exists i. split; [exact Hi|].
    apply in_map_iff. exists x. split; [reflexivity|exact Hx].
Qed.

Lemma occurs_day_hour_spec (df : list CleanRow) (i : nat) (h : Z) :
  occurs_day_hour df i h = true
  <-> exists r, In r df /\ DayOfWeek r = Some i /\ Hour r = h.
Proof.
  unfold occurs_day_hour. rewrite existsb_exists.
  split; intros (r & Hr & H); exists r; split; try exact Hr.
  - apply andb_true_iff in H. destruct H as (Hd & Hh).
    apply Z.eqb_eq in Hh. split; [|exact Hh].
    unfold has_day in Hd. destruct (DayOfWeek r) as [j|]; [|discriminate].
    apply Nat.eqb_eq in Hd. congruence.
  - destruct H as (Hd & Hh). apply andb_true_iff. split.
    + unfold has_day. rewrite Hd. apply Nat.eqb_refl.
    + apply Z.eqb_eq. exact Hh.
Qed.

Lemma group_hours_In (observed : bool) (df : list CleanRow) (i : nat)
  (h : Z) :
  In h (group_hours observed df i)
  <-> In h (hours df) /\ (observed = true -> occurs_day_hour df i h = true).
Proof.
  unfold group_hours, hours. destruct observed.
  - rewrite filter_In. intuition.
  - intuition discriminate.
Qed.

Lemma cell_unlisted (df : list CleanRow) (i : nat) (h : Z) :
  occurs_day_hour df i h = false -> cell df i h = 0%Q.
Proof.
  intros H. unfold cell, occurs_day_hour in *.
  assert (E : filter (fun r => has_day i r && (Hour r =? h)) df = []).
  { induction df as [|r df IH]; [reflexivity|]. simpl in *.
    apply orb_false_iff in H. destruct H as (H1 & H2).
    rewrite H1. apply IH. exact H2. }
  rewrite E. reflexivity.
Qed.

Lemma day_hour_sum_cells (observed : bool) (df : list CleanRow) :
  day_hour_sum observed df
  = flat_map (fun i => map (fun h => ((i, h), cell df i h))
                           (group_hours observed df i))
             day_codes.
Proof. reflexivity. Qed.

Lemma hours_nonempty (df : list CleanRow) : df <> [] -> hours df <> [].
Proof.
  destruct df as [|r df]; [congruence|]. intros _ E.
  assert (H : In (Hour r) (hours (r :: df))).
  { apply Z_keys_In. left. reflexivity. }
  rewrite E in H. exact H.
Qed.

Lemma In_day_codes (i : nat) : In i day_codes <-> (i < 7)%nat.
Proof. unfold day_codes. rewrite in_seq. simpl. lia. Qed.

Lemma derive_row_ok (r : SaneRow) :
  Quantity r > 0 -> (0 < UnitPrice r)%Q -> derived_ok (derive_row r).
Proof.
  intros Hq Hu. unfold derived_ok. split; [|split].
  - simpl. apply Qmult_lt_0_compat; [|exact Hu].
    unfold Qlt. simpl. lia.
  - destruct (derive_row_day r) as (i & Hi & Hd & _).
    exists i. split; assumption.
  - apply dt_hour_range.
Qed.

Lemma preprocess_ok (df_raw : list RawRow) (df : list CleanRow) :
  preprocess df_raw = Some df -> Forall derived_ok df.
Proof.
  unfold preprocess.
  destruct (sanitize df_raw) as [sane|] eqn:Es; [|discriminate].
  intros H. injection H as <-.
  pose proof (sanitize_positive df_raw sane Es) as Hpos.
  unfold derive. apply Forall_forall. intros r Hr.
  apply in_map_iff in Hr. destruct Hr as (r0 & <- & Hr0).
  rewrite Forall_forall in Hpos.
  destruct (Hpos r0 Hr0) as (Hq & Hu).
  apply derive_row_ok; assumption.
Qed.

Lemma filtered_view_sub (df_raw : list RawRow) (sel : list Z)
  (df_filtered : list CleanRow) :
  filtered_view df_raw sel df_filtered ->
  exists df, preprocess df_raw = Some df /\ incl df_filtered df.
Proof.
  intros (df & w & Hp & Ht). exists df. split; [exact Hp|].
  destruct sel as [|m ms].
  - rewrite time_filter_empty_selection in Ht. injection Ht as <- _.
    apply incl_refl.
  - rewrite time_filter_selection in Ht. injection Ht as <- _.
    intros r Hr. apply filter_In in Hr. apply Hr.
Qed.

Lemma filtered_view_ok (df_raw : list RawRow) (sel : list Z)
  (df_filtered : list CleanRow) :
  filtered_view df_raw sel df_filtered -> Forall derived_ok df_filtered.
Proof.
  intros Hv. destruct (filtered_view_sub _ _ _ Hv) as (df & Hp & Hincl).
  pose proof (preprocess_ok _ _ Hp) as Hok.
  rewrite Forall_forall in *. intros r Hr. apply Hok, Hincl, Hr.
Qed.

(** The rows of the matrix are the group keys of the weekday grouping. *)
Lemma day_hour_sum_rows (observed : bool) (df : list CleanRow) (x : nat) :
  df <> [] ->
  (In x (map (fun e => fst (fst e)) (day_hour_sum observed df))
   <-> In x (group_days observed df)).
Proof.
  intros Hne. rewrite day_hour_sum_cells, listed_level0.
  rewrite In_day_codes, group_days_In.
  pose proof (hours_nonempty df Hne) as Hh.
  split.
  - intros (Hx & Hg). split; [exact Hx|]. intros ->.
    destruct (group_hours true df x) as [|h l] eqn:E; [congruence|].
    assert (Hin : In h (group_hours true df x)) by (rewrite E; left; auto).
    apply group_hours_In in Hin. destruct Hin as (_ & Ho).
    specialize (Ho eq_refl). apply occurs_day_hour_spec in Ho.
    destruct Ho as (r & Hr & Hd & _).
    apply occurs_day_spec. exists r. split; assumption.
  - intros (Hx & Ho). split; [exact Hx|]. intros E.
    destruct observed.
    + specialize (Ho eq_refl). apply occurs_day_spec in Ho.
      destruct Ho as (r & Hr & Hd).
      assert (Hin : In (Hour r) (group_hours true df x)).
      { apply group_hours_In. split.
        - apply Z_keys_In. apply in_map. exact Hr.
        - intros _. apply occurs_day_hour_spec. exists r. auto. }
      rewrite E in Hin. exact Hin.
    + unfold group_hours in E. apply Hh. exact E.
Qed.

(** The columns of the matrix are the hours that occur in the frame. *)
Lemma day_hour_sum_columns (observed : bool) (df : list CleanRow) (x : Z) :
  Forall derived_ok df ->
  (In x (map (fun e => snd (fst e)) (day_hour_sum observed df))
   <-> In x (hours df)).
Proof.
  intros Hok. rewrite day_hour_sum_cells, listed_level1. split.
  - intros (i & _ & Hx). apply group_hours_In in Hx. apply Hx.
  - intros Hx. pose proof Hx as Hx'.
    apply (proj1 (Z_keys_In _ _)) in Hx'. apply in_map_iff in Hx'.
    destruct Hx' as (r & Hh & Hr). rewrite Forall_forall in Hok.
    destruct (Hok r Hr) as (_ & (i & Hi & Hd) & _).
    exists i. split; [apply In_day_codes; exact Hi|].
    apply group_hours_In. split; [exact Hx|].
    intros _. apply occurs_day_hour_spec. exists r. auto.
Qed.

(** The matrix of a non-empty frame of cleaned rows, cell by cell. *)
Lemma hourly_sales_cells (observed : bool) (df : list CleanRow) :
  df <> [] -> Forall derived_ok df ->
  hourly_sales observed df
  = {| index := map day_label (group_days observed df);
       columns := hours df;
       values := map (fun i => map (fun h => cell df i h) (hours df))
                     (group_days observed df) |}.
Proof.
  intros Hne Hok. unfold hourly_sales, unstack.
  assert (E0 : sorted_unique Nat.compare
                 (map (fun e => fst (fst e)) (day_hour_sum observed df))
               = group_days observed df).
  { apply sorted_unique_of_sorted; try nat_order.
    - apply sorted_weaken with (R := lt);
        [|apply group_days_ascending].
      intros a b Hab. apply Nat.compare_lt_iff. exact Hab.
    - intros x. apply day_hour_sum_rows. exact Hne. }
  assert (E1 : sorted_unique Z.compare
                 (map (fun e => snd (fst e)) (day_hour_sum observed df))
               = hours df).
  { apply sorted_unique_of_sorted; try Z_order.
    - apply Z_keys_sorted.
    - intros x. apply day_hour_sum_columns. exact Hok. }
  rewrite E0, E1. f_equal.
  apply map_ext_in. intros i Hi.
  apply map_ext_in. intros h Hin.
  rewrite day_hour_sum_cells.
  destruct (in_dec Z.eq_dec h (group_hours observed df i)) as [Hl|Hl].
  - rewrite (lookup2_listed day_codes (group_hours observed df) (cell df)
               i h); [reflexivity| |exact Hl].
    apply In_day_codes. apply group_days_In in Hi. apply Hi.
  - rewrite (lookup2_unlisted day_codes (group_hours observed df) (cell df)
               i h Hl).
    symmetry. apply cell_unlisted.
    destruct (occurs_day_hour df i h) eqn:E; [|reflexivity].
    exfalso. apply Hl. apply group_hours_In. split; [exact Hin|auto].
Qed.

Lemma cell_nonneg (df : list CleanRow) (i : nat) (h : Z) :
  Forall derived_ok df -> (0 <= cell df i h)%Q.
Proof.
  intros Hok. unfold cell. apply Qsum_nonneg.
  apply Forall_forall. intros q Hq.
  apply in_map_iff in Hq. destruct Hq as (r & <- & Hr).
  apply filter_In in Hr. destruct Hr as (Hr & _).
  rewrite Forall_forall in Hok.
  apply Qlt_le_weak. apply (Hok r Hr).
Qed.

Lemma cell_empty (df : list CleanRow) (i : nat) (h : Z) :
  (forall r, In r df -> ~ (DayOfWeek r = Some i /\ Hour r = h)) ->
  cell df i h = 0%Q.
Proof.
  intros H. unfold cell.
  assert (E : filter (fun r => has_day i r && (Hour r =? h)) df = []).
  { induction df as [|r df IH]; [reflexivity|]. simpl.
    destruct (has_day i r && (Hour r =? h)) eqn:Eb.
    - exfalso. apply andb_true_iff in Eb. destruct Eb as (Ed & Eh).
      apply (H r (or_introl eq_refl)). split.
      + unfold has_day in Ed. destruct (DayOfWeek r) as [j|]; [|discriminate].
        apply Nat.eqb_eq in Ed. congruence.
      + apply Z.eqb_eq. exact Eh.
    - apply IH. intros r' Hr'. apply H. right. exact Hr'. }
  rewrite E. reflexivity.
Qed.

Lemma hours_range (df : list CleanRow) :
  Forall derived_ok df -> Forall (fun h => 0 <= h < 24) (hours df).
Proof.
  intros Hok. apply Forall_forall. intros h Hh.
  apply (proj1 (Z_keys_In _ _)) in Hh. apply in_map_iff in Hh.
  destruct Hh as (r & <- & Hr).
  rewrite Forall_forall in Hok. apply (Hok r Hr).
Qed.

Lemma hours_count (df : list CleanRow) :
  Forall derived_ok df -> (List.length (hours df) <= 24)%nat.
Proof.
  intros Hok.
  change 24%nat with (List.length (map Z.of_nat (seq 0 24))).
  apply NoDup_incl_length; [apply Z_keys_NoDup|].
  intros h Hh.
  pose proof (hours_range df Hok) as Hr. rewrite Forall_forall in Hr.
  specialize (Hr h Hh).
  apply in_map_iff. exists (Z.to_nat h). split; [lia|].
  apply in_seq. lia.
Qed.

Lemma group_days_count (observed : bool) (df : list CleanRow) :
  Forall derived_ok df -> df <> [] ->
  (1 <= List.length (group_days observed df) <= 7)%nat.
Proof.
  intros Hok Hne. split.
  - destruct df as [|r df]; [congruence|].
    inversion Hok as [|? ? (_ & (i & Hi & Hd) & _) _]; subst.
    assert (Hin : In i (group_days observed (r :: df))).
    { apply group_days_In. split; [exact Hi|]. intros _.
      apply occurs_day_spec. exists r. split; [left; reflexivity|exact Hd]. }
    destruct (group_days observed (r :: df)); [contradiction|simpl; lia].
  - unfold group_days. destruct observed; [|simpl; lia].
    eapply Nat.le_trans; [apply filter_length_le|]. simpl. lia.
Qed.

(** C1, as the script has it.  For every non-empty filtered frame the
    matrix has one row per group key of the weekday grouping, in the order
    Monday to Sunday, and one column for each distinct hour that occurs in
    the frame, in ascending order: between 1 and 24 columns, each an hour
    of 0 to 23.  Where the installed pandas groups with [observed=False]
    the rows are the seven weekdays; where it groups with [observed=True]
    they are the weekdays that occur in the frame, between one and seven.
    The matrix is dense over its rows and columns; every cell is the sum of
    [TotalPrice] over the rows of its weekday and hour, is at least zero,
    and is an explicit zero when no row has that weekday and hour. *)
Theorem hourly_sales_matrix (observed : bool) (df_raw : list RawRow)
  (sel : list Z) (df_filtered : list CleanRow) :
  filtered_view df_raw sel df_filtered ->
  df_filtered <> [] ->
  (exists codes,
     StronglySorted lt codes /\
     index (hourly_sales observed df_filtered)
     = map (fun i => nth i day_order EmptyString) codes /\
     values (hourly_sales observed df_filtered)
     = map (fun i => map (fun h => cell df_filtered i h)
                         (columns (hourly_sales observed df_filtered)))
           codes /\
     (1 <= List.length codes <= 7)%nat /\
     (observed = false -> codes = [0; 1; 2; 3; 4; 5; 6]%nat) /\
     (observed = true ->
      forall i, In i codes <->
                (i < 7)%nat /\
                exists r, In r df_filtered /\ DayOfWeek r = Some i)) /\
  (observed = false -> index (hourly_sales observed df_filtered) = day_order) /\
  columns (hourly_sales observed df_filtered)
  = sorted_unique Z.compare (map Hour df_filtered) /\
  StronglySorted Z.lt (columns (hourly_sales observed df_filtered)) /\
  Forall (fun h => 0 <= h <= 23) (columns (hourly_sales observed df_filtered)) /\
  (1 <= List.length (columns (hourly_sales observed df_filtered)) <= 24)%nat /\
  List.length (values (hourly_sales observed df_filtered))
  = List.length (index (hourly_sales observed df_filtered)) /\
  Forall (fun row =>
            List.length row
            = List.length (columns (hourly_sales observed df_filtered)))
         (values (hourly_sales observed df_filtered)) /\
  Forall (Forall (fun c => 0 <= c)%Q)
         (values (hourly_sales observed df_filtered)) /\
  (forall i h,
     (forall r, In r df_filtered -> ~ (DayOfWeek r = Some i /\ Hour r = h)) ->
     cell df_filtered i h = 0%Q).
Proof.
  intros Hv Hne.
  pose proof (filtered_view_ok _ _ _ Hv) as Hok.
  rewrite (hourly_sales_cells observed df_filtered Hne Hok). simpl.
  split.
  { exists (group_days observed df_filtered).
    split; [apply group_days_ascending|].
    split; [reflexivity|]. split; [reflexivity|].
    split; [apply group_days_count; assumption|]. split.
    - intros ->. reflexivity.
    - intros -> i. rewrite group_days_In, <- occurs_day_spec. intuition. }
  split; [intros ->; reflexivity|].
  split; [reflexivity|]. split.
  { pose proof (Z_keys_sorted (map Hour df_filtered)) as S.
    fold (hours df_filtered) in S.
    induction S as [|a l _ IH F]; constructor; [exact IH|].
    eapply Forall_impl; [|exact F].
    intros b Hb. apply Z.compare_lt_iff. exact Hb. }
  split.
  { eapply Forall_impl; [|exact (hours_range df_filtered Hok)].
    simpl. intros h Hh. lia. }
  split.
  { split; [|exact (hours_count df_filtered Hok)].
    pose proof (hours_nonempty df_filtered Hne) as Hh.
    destruct (hours df_filtered); [congruence|simpl; lia]. }
  split; [rewrite !length_map; reflexivity|]. split.
  { apply Forall_forall. intros row Hrow.
    apply in_map_iff in Hrow. destruct Hrow as (i & <- & _).
    apply length_map. }
  split.
  { apply Forall_forall. intros row Hrow.
    apply in_map_iff in Hrow. destruct Hrow as (i & <- & _).
    apply Forall_forall. intros c Hc.
    apply in_map_iff in Hc. destruct Hc as (h & <- & _).
    apply cell_nonneg. exact Hok. }
  intros i h. apply cell_empty.
Qed.

Lemma example_filtered_view : filtered_view example_raw [1] example_df.
Proof.
  exists example_df, []. split; vm_compute; reflexivity.
Qed.

Lemma hourly_sales_matrix_witness :
  columns (hourly_sales false example_df) = [10] /\
  columns (hourly_sales true example_df) = [10].
Proof.
  assert (Hne : example_df <> []) by discriminate.
  pose proof (hourly_sales_matrix false example_raw [1] example_df
                example_filtered_view Hne) as (_ & _ & Hc & _).
  pose proof (hourly_sales_matrix true example_raw [1] example_df
                example_filtered_view Hne) as (_ & _ & Hc' & _).
  split; [rewrite Hc|rewrite Hc']; reflexivity.
Defined.

(** C1, as stated, fails on the worked example: the filtered frame holds a
    single row, of a Wednesday at 10 o'clock, and the matrix has the single
    column 10 rather than the twenty-four columns 0 to 23, with seven rows
    under [observed=False] and the single row of Wednesday under
    [observed=True]. *)
Lemma hourly_sales_has_observed_hours_only :
  filtered_view example_raw [1] example_df /\
  example_df <> [] /\
  values (hourly_sales false example_df)
  = [[0]; [0]; [15 # 2]; [0]; [0]; [0]; [0]]%Q /\
  columns (hourly_sales false example_df) = [10] /\
  ~ dense_7x24 (hourly_sales false example_df) /\
  index (hourly_sales true example_df) = ["Wednesday"%string] /\
  values (hourly_sales true example_df) = [[15 # 2]] /\
  columns (hourly_sales true example_df) = [10] /\
  ~ dense_7x24 (hourly_sales true example_df).
Proof.
  split; [exact example_filtered_view|].
  split; [discriminate|].
  split; [vm_compute; reflexivity|].
  split; [vm_compute; reflexivity|].
  split; [intros (_ & Hc & _); vm_compute in Hc; discriminate|].
  split; [vm_compute; reflexivity|].
  split; [vm_compute; reflexivity|].
  split; [vm_compute; reflexivity|].
  intros (_ & Hc & _). vm_compute in Hc. discriminate.
Qed.

(** ** Top products by quantity *)

Section NLargestFacts.
Context {A : Type} (gtb : A -> A -> bool).

Lemma insert_desc_perm (x : A) (l : list A) :
  Permutation (insert_desc gtb x l) (x :: l).
Proof.
  induction l as [|y l IH]; simpl.
  - apply Permutation_refl.
  - destruct (gtb y x).
    + eapply Permutation_trans; [apply perm_skip, IH|apply perm_swap].
    + apply Permutation_refl.
Qed.

Lemma sort_desc_perm (l : list A) : Permutation (sort_desc gtb l) l.
Proof.
  induction l as [|x l IH]; simpl.
  - apply Permutation_refl.
  - eapply Permutation_trans; [apply insert_desc_perm|].
    apply perm_skip, IH.
Qed.

Lemma nlargest_length (n : nat) (l : list A) :
  List.length (nlargest gtb n l) = Nat.min n (List.length l).
Proof.
  unfold nlargest. rewrite length_firstn.
  rewrite (Permutation_length (sort_desc_perm l)). reflexivity.
Qed.

Lemma nlargest_incl (n : nat) (l : list A) : incl (nlargest gtb n l) l.
Proof.
  intros x Hx. unfold nlargest in Hx.
  apply (Permutation_in x (sort_desc_perm l)).
  rewrite <- (firstn_skipn n (sort_desc gtb l)).
  apply in_or_app. left. exact Hx.
Qed.

(** With no more than [n] entries nothing is cut off. *)
Lemma nlargest_all (n : nat) (l : list A) :
  (List.length l <= n)%nat -> Permutation (nlargest gtb n l) l.
Proof.
  intros H. unfold nlargest. rewrite firstn_all2.
  - apply sort_desc_perm.
  - rewrite (Permutation_length (sort_desc_perm l)). exact H.
Qed.
End NLargestFacts.

Lemma sorted_firstn {A : Type} (R : A -> A -> Prop) (n : nat) (l : list A) :
  StronglySorted R l -> StronglySorted R (firstn n l).
Proof.
  intros S. revert n. induction S as [|a l S IH F]; intros n.
  - rewrite firstn_nil. constructor.
  - destruct n as [|n]; simpl; constructor; [apply IH|].
    rewrite Forall_forall in *. intros x Hx. apply F.
    rewrite <- (firstn_skipn n l). apply in_or_app. left. exact Hx.
Qed.

Lemma sorted_firstn_skipn {A : Type} (R : A -> A -> Prop) (n : nat)
  (l : list A) (t e : A) :
  StronglySorted R l -> In t (firstn n l) -> In e (skipn n l) -> R t e.
Proof.
  intros S. revert n. induction S as [|a l S IH F]; intros n Ht He.
  - rewrite firstn_nil in Ht. contradiction.
  - destruct n as [|n]; simpl in *; [contradiction|].
    destruct Ht as [<-|Ht].
    + rewrite Forall_forall in F. apply F.
      rewrite <- (firstn_skipn n l). apply in_or_app. right. exact He.
    + apply (IH n); assumption.
Qed.

(** An entry that precedes every entry of a ranked list by key is inserted
    at its rank. *)
Lemma insert_desc_ranked (x : string * Z) (l : list (string * Z)) :
  StronglySorted ranks_before l ->
  Forall (key_before x) l ->
  StronglySorted ranks_before (insert_desc qty_gtb x l).
Proof.
  induction 1 as [|y l S IH F]; intros Hk; simpl.
  - constructor; constructor.
  - inversion Hk as [|? ? Hxy Hk']; subst.
    unfold qty_gtb at 1. destruct (snd y >? snd x) eqn:E.
    + apply Z.gtb_gt in E.
      constructor; [apply IH; exact Hk'|].
      apply Forall_forall. intros z Hz.
      apply (Permutation_in z (insert_desc_perm qty_gtb x l)) in Hz.
      destruct Hz as [<-|Hz].
      * left. exact E.
      * rewrite Forall_forall in F. apply F. exact Hz.
    + assert (Hle : snd y <= snd x).
      { destruct (Z.gtb_spec (snd y) (snd x)); [discriminate|assumption]. }
      constructor; [constructor; assumption|].
      constructor.
      * unfold ranks_before, key_before in *.
        destruct (Z.eq_dec (snd x) (snd y)); [right; auto|left; lia].
      * rewrite Forall_forall in *. intros z Hz.
        specialize (F z Hz). specialize (Hk' z Hz).
        unfold ranks_before, key_before in *.
        destruct (Z.eq_dec (snd x) (snd z)); [right; auto|left; lia].
Qed.

Lemma sort_desc_ranked (l : list (string * Z)) :
  StronglySorted key_before l ->
  StronglySorted ranks_before (sort_desc qty_gtb l).
Proof.
  induction 1 as [|x l S IH F]; simpl.
  - constructor.
  - apply insert_desc_ranked; [exact IH|].
    rewrite Forall_forall in *. intros z Hz. apply F.
    apply (Permutation_in z (sort_desc_perm qty_gtb l)). exact Hz.
Qed.

Lemma qty_by_product_sorted (df : list CleanRow) :
  StronglySorted key_before (qty_by_product df).
Proof.
  unfold qty_by_product, groupby_sum_Z.
  pose proof (string_keys_sorted
                (map (fun r : CleanRow => Description r) df)) as S.
  induction S as [|k ks S IH F]; simpl; constructor; [exact IH|].
  apply Forall_forall. intros e He.
  apply in_map_iff in He. destruct He as (k' & <- & Hk').
  rewrite Forall_forall in F. apply (F k' Hk').
Qed.

Lemma Zsum_perm (l l' : list Z) : Permutation l l' -> Zsum l = Zsum l'.
Proof.
  induction 1 as [|a l l' _ IH|a b l|l1 l2 l3 _ IH1 _ IH2]; simpl; lia.
Qed.

Lemma wrap64_range (z : Z) : - 2 ^ 63 <= wrap64 z < 2 ^ 63.
Proof.
  unfold wrap64.
  pose proof (Z.mod_pos_bound (z + 2 ^ 63) (2 ^ 64) ltac:(lia)). lia.
Qed.

Lemma wrap64_small (z : Z) : - 2 ^ 63 <= z < 2 ^ 63 -> wrap64 z = z.
Proof.
  intros H. unfold wrap64. rewrite Z.mod_small; lia.
Qed.

Lemma wrap64_add_l (a b : Z) : wrap64 (wrap64 a + b) = wrap64 (a + b).
Proof.
  unfold wrap64.
  replace ((a + 2 ^ 63) mod 2 ^ 64 - 2 ^ 63 + b + 2 ^ 63)
    with ((a + 2 ^ 63) mod 2 ^ 64 + b) by lia.
  rewrite Zplus_mod_idemp_l. f_equal. f_equal. lia.
Qed.

(** Adding with wrap-around at every step gives the exact sum reduced to
    64 bits once. *)
Lemma int64_sum_wrap (l : list Z) : int64_sum l = wrap64 (Zsum l).
Proof.
  unfold int64_sum.
  assert (H : forall acc, wrap64 acc = acc ->
              fold_left (fun acc x => wrap64 (acc + x)) l acc
              = wrap64 (acc + Zsum l)).
  { induction l as [|x l IH]; intros acc Hacc; simpl.
    - rewrite Z.add_0_r. symmetry. exact Hacc.
    - rewrite IH.
      + rewrite wrap64_add_l. f_equal. lia.
      + apply wrap64_small. apply wrap64_range. }
  apply (H 0). reflexivity.
Qed.

Lemma int64_sum_perm (l l' : list Z) :
  Permutation l l' -> int64_sum l = int64_sum l'.
Proof.
  intros H. rewrite !int64_sum_wrap, (Zsum_perm l l' H). reflexivity.
Qed.

(** The grouped sums do not depend on the order of the rows. *)
Lemma qty_by_product_perm (df df' : list CleanRow) :
  Permutation df df' -> qty_by_product df = qty_by_product df'.
Proof.
  intros Hp. unfold qty_by_product, groupby_sum_Z.
  rewrite (string_keys_ext (map (fun r : CleanRow => Description r) df)
                           (map (fun r : CleanRow => Description r) df')).
  - apply map_ext. intros k. f_equal.
    apply int64_sum_perm, Permutation_map. unfold group_rows.
    apply filter_perm. exact Hp.
  - intros x. split; apply Permutation_in.
    + apply Permutation_map. exact Hp.
    + apply Permutation_map, Permutation_sym. exact Hp.
Qed.

Lemma top_selling_products_qty_eq (df : list CleanRow) :
  top_selling_products_qty df = nlargest qty_gtb 10 (qty_by_product df).
Proof. reflexivity. Qed.

(** C8, as the script has it.  On every frame the ranking of products by
    quantity has at most ten entries, each a product of the frame with the
    sum of its quantities as 64-bit integer addition computes it: the exact
    sum reduced to the signed 64-bit range, which is the exact sum whenever
    that lies within the range.  The entries are in descending order of
    these sums.  Ties are settled by a fixed second key, the product
    description in ascending order: of two entries with equal sums the one
    with the smaller description comes first, and every grouped product
    left out ranks after every entry kept, by sum and then by description.
    The order of the rows of the frame plays no part: reordering them
    leaves the ranking unchanged. *)
Theorem top_products_by_quantity (df : list CleanRow) :
  (List.length (top_selling_products_qty df) <= 10)%nat /\
  List.length (top_selling_products_qty df)
  = Nat.min 10 (List.length (qty_by_product df)) /\
  (forall e, In e (top_selling_products_qty df) ->
     In (fst e) (map (fun r : CleanRow => Description r) df) /\
     snd e = wrap64 (summed_quantity df (fst e)) /\
     - 2 ^ 63 <= snd e < 2 ^ 63 /\
     (- 2 ^ 63 <= summed_quantity df (fst e) < 2 ^ 63 ->
      snd e = summed_quantity df (fst e))) /\
  StronglySorted (fun a b => snd a >= snd b) (top_selling_products_qty df) /\
  StronglySorted ranks_before (top_selling_products_qty df) /\
  (forall e t,
     In e (qty_by_product df) -> ~ In e (top_selling_products_qty df) ->
     In t (top_selling_products_qty df) -> ranks_before t e) /\
  (forall df', Permutation df df' ->
     top_selling_products_qty df' = top_selling_products_qty df).
Proof.
  rewrite top_selling_products_qty_eq.
  pose proof (sort_desc_ranked _ (qty_by_product_sorted df)) as S.
  split; [rewrite nlargest_length; lia|].
  split; [apply nlargest_length|].
  split.
  { intros e He. apply nlargest_incl in He.
    unfold qty_by_product, groupby_sum_Z in He.
    apply in_map_iff in He. destruct He as (k & <- & Hk). simpl.
    split; [apply string_keys_In; exact Hk|].
    assert (E : int64_sum
                  (map (fun r : CleanRow => Quantity r)
                     (group_rows String.compare
                        (fun r : CleanRow => Description r) k df))
                = wrap64 (summed_quantity df k)).
    { rewrite int64_sum_wrap. unfold summed_quantity, group_rows.
      f_equal. f_equal. f_equal.
      apply filter_ext. intros r.
      destruct (String.eqb (Description r) k) eqn:E.
      - apply string_key_eqb_true. apply String.eqb_eq. exact E.
      - destruct (key_eqb String.compare (Description r) k) eqn:E';
          [|reflexivity].
        apply string_key_eqb_true in E'. apply String.eqb_neq in E.
        contradiction. }
    rewrite E. split; [reflexivity|].
    split; [apply wrap64_range|]. apply wrap64_small. }
  split.
  { apply sorted_weaken with (R := ranks_before).
    - intros a b [H|[H _]]; lia.
    - apply sorted_firstn. exact S. }
  split; [apply sorted_firstn; exact S|].
  split.
  { intros e t He Hne Ht. unfold nlargest in *.
    apply (sorted_firstn_skipn ranks_before 10
             (sort_desc qty_gtb (qty_by_product df))); [exact S|exact Ht|].
    apply (Permutation_in e
             (Permutation_sym (sort_desc_perm qty_gtb (qty_by_product df))))
      in He.
    rewrite <- (firstn_skipn 10 (sort_desc qty_gtb (qty_by_product df)))
      in He.
    apply in_app_or in He. destruct He as [He|He]; [contradiction|exact He]. }
  intros df' Hp. rewrite top_selling_products_qty_eq.
  rewrite (qty_by_product_perm df df' Hp). reflexivity.
Qed.

(** C8, as stated, fails when a product's total quantity leaves the 64-bit
    range: with two lines of 2^62 units of BIG and one unit of SMALL, the
    sum of BIG wraps around to -2^63, and the ranking puts SMALL, with a
    total of 1, before BIG, whose total quantity is 2^63. *)
Lemma top_products_wrap_around :
  filtered_view overflow_raw [1] overflow_df /\
  top_selling_products_qty overflow_df
  = [("SMALL"%string, 1); ("BIG"%string, - 2 ^ 63)] /\
  summed_quantity overflow_df "SMALL" = 1 /\
  summed_quantity overflow_df "BIG" = 2 ^ 63 /\
  ~ StronglySorted
      (fun a b => summed_quantity overflow_df (fst a)
                  >= summed_quantity overflow_df (fst b))
      (top_selling_products_qty overflow_df).
Proof.
  split; [exists overflow_df, []; split; vm_compute; reflexivity|].
  split; [vm_compute; reflexivity|].
  split; [vm_compute; reflexivity|].
  split; [vm_compute; reflexivity|].
  intros S. inversion S as [|a l _ F]; subst.
  inversion F as [|b l' H _]; subst.
  vm_compute in H. apply H. reflexivity.
Qed.

Lemma top_products_by_quantity_witness :
  top_selling_products_qty (rev tied_df) = top_selling_products_qty tied_df /\
  top_selling_products_qty tied_df
  = [("BOWL"%string, 4); ("MUG"%string, 4)].
Proof.
  pose proof (top_products_by_quantity tied_df)
    as (_ & _ & _ & _ & _ & _ & Hp).
  split.
  - apply Hp. apply Permutation_rev.
  - vm_compute. reflexivity.
Defined.

(** ** Country revenue shares *)

Lemma country_chart_dominant_in_top (df : list CleanRow) :
  dominant_in_top df = true ->
  country_chart df = fig_country title_other (country_sales_other df).
Proof. intros H. unfold country_chart. rewrite H. reflexivity. Qed.

Lemma country_chart_dominant_not_in_top (df : list CleanRow) :
  dominant_in_top df = false ->
  country_chart df = fig_country title_top_10 (country_sales_top_10 df).
Proof. intros H. unfold country_chart. rewrite H. reflexivity. Qed.

Lemma country_sales_other_spec (df : list CleanRow) (e : string * Q) :
  In e (country_sales_other df)
  <-> In e (country_sales df) /\ fst e <> United_Kingdom.
Proof.
  unfold country_sales_other. rewrite filter_In, negb_true_iff.
  rewrite String.eqb_neq. reflexivity.
Qed.

Lemma dominant_in_top_spec (df : list CleanRow) :
  dominant_in_top df = true
  <-> In United_Kingdom (map fst (country_sales_top_10 df)).
Proof.
  unfold dominant_in_top. rewrite existsb_exists. split.
  - intros (c & Hc & E). apply String.eqb_eq in E. subst c. exact Hc.
  - intros H. exists United_Kingdom. split; [exact H|apply String.eqb_refl].
Qed.

(** With at most eleven countries the test on the eleven largest is a test
    on all of them. *)
Lemma dominant_in_top_small (df : list CleanRow) :
  (List.length (country_sales df) <= 11)%nat ->
  (dominant_in_top df = true
   <-> In United_Kingdom (map fst (country_sales df))).
Proof.
  intros Hlen. rewrite dominant_in_top_spec.
  pose proof (nlargest_all (fun a b : string * Q => Qgtb (snd a) (snd b))
                11 (country_sales df) Hlen) as Hp.
  fold (country_sales_top_10 df) in Hp.
  split; apply Permutation_in, Permutation_map;
    [exact Hp|apply Permutation_sym, Hp].
Qed.

(** The country example of the specification: the dominant country is
    among the three groups, and the chart shows the two others. *)
Example country_chart_three :
  filtered_view three_raw [1] three_df /\
  country_chart three_df
  = fig_country title_other
      [("France"%string, 500%Q); ("Germany"%string, 300%Q)].
Proof.
  split.
  - exists three_df, []. split; vm_compute; reflexivity.
  - vm_compute. reflexivity.
Qed.

(** C2 against the script.  With eleven countries and none of them the
    dominant one, the chart titled TOP 10 shows eleven entries, not ten.
    With thirteen countries of which the dominant one ranks twelfth by
    revenue, the dominant country is in the grouped result, yet the branch
    for its absence is taken and the chart shows eleven entries, not the
    twelve entries that remain when the dominant one is excluded. *)
Theorem country_chart_takes_eleven :
  (filtered_view eleven_raw [1] eleven_df /\
   ~ In United_Kingdom (map fst (country_sales eleven_df)) /\
   country_chart eleven_df
   = fig_country title_top_10 (country_sales_top_10 eleven_df) /\
   map fst (country_sales_top_10 eleven_df)
   = ["Australia"; "Belgium"; "Cyprus"; "Denmark"; "EIRE"; "France";
      "Germany"; "Iceland"; "Japan"; "Netherlands"; "Norway"]%string) /\
  (filtered_view thirteen_raw [1] thirteen_df /\
   In United_Kingdom (map fst (country_sales thirteen_df)) /\
   country_chart thirteen_df
   = fig_country title_top_10 (country_sales_top_10 thirteen_df) /\
   List.length (country_sales_top_10 thirteen_df) = 11%nat /\
   List.length (country_sales_other thirteen_df) = 12%nat).
Proof.
  split.
  - split; [exists eleven_df, []; split; vm_compute; reflexivity|].
    split; [vm_compute; intuition discriminate|].
    split; vm_compute; reflexivity.
  - split; [exists thirteen_df, []; split; vm_compute; reflexivity|].
    split; [vm_compute; intuition|].
    split; [vm_compute; reflexivity|].
    split; vm_compute; reflexivity.
Qed.

(** ** The run as a whole *)

(** A run on a table that was found: preprocessing succeeds, the filter
    returns, and the run either ends at the gate or aggregates. *)
Lemma run_cases (observed : bool) (df_raw : list RawRow) (sel : list Z) :
  exists df out w,
    preprocess df_raw = Some df /\
    time_filter df sel [] = (Ret out, w) /\
    (w = [] \/ w = [st_sidebar_warning msg_all_months]) /\
    run observed (Some df_raw) sel
    = if empty out
      then (Stopped,
            st_sidebar_multiselect (month_options df) (month_options df)
              :: w ++ [st_warning msg_no_data])
      else (Ret tt,
            st_sidebar_multiselect (month_options df) (month_options df)
              :: w ++ aggregate_events observed out).
Proof.
  destruct (preprocess_total df_raw) as (sane & _ & Hp).
  exists (derive sane).
  destruct sel as [|m ms].
  - exists (derive sane), [st_sidebar_warning msg_all_months].
    split; [exact Hp|]. split; [reflexivity|]. split; [right; reflexivity|].
    rewrite (run_filtered observed _ _ _ _ _ Hp (time_filter_empty_selection _ _)).
    destruct (derive sane) as [|r rest].
    + apply gate_halts.
    + apply gate_passes.
  - exists (filter (fun r => isin (m :: ms) (Month r)) (derive sane)), [].
    split; [exact Hp|]. split; [reflexivity|]. split; [left; reflexivity|].
    rewrite (run_filtered observed _ _ _ _ _ Hp (time_filter_selection _ _ _ _)).
    destruct (filter (fun r => isin (m :: ms) (Month r)) (derive sane))
      as [|r rest].
    + apply gate_halts.
    + apply gate_passes.
Qed.

Lemma aggregate_events_count (observed : bool) (df_filtered : list CleanRow) :
  List.length (filter is_aggregate (aggregate_events observed df_filtered)) = 11%nat /\
  existsb is_alert (aggregate_events observed df_filtered) = false.
Proof. split; reflexivity. Qed.

(** X1.  When the data file is not found the run logs one error and stops,
    whatever the selection: no selector is built and nothing is aggregated.
    When the file is found no error is ever logged. *)
Theorem missing_file_is_the_only_error (observed : bool) :
  (forall sel, run observed None sel = (Stopped, [st_error msg_file_not_found])) /\
  (forall df_raw sel msg,
     ~ In (st_error msg) (snd (run observed (Some df_raw) sel))).
Proof.
  split; [reflexivity|].
  intros df_raw sel msg.
  destruct (run_cases observed df_raw sel) as (df & out & w & _ & _ & Hw & Hr).
  rewrite Hr.
  assert (Hnw : ~ In (st_error msg) w)
    by (destruct Hw as [->| ->]; simpl; intuition discriminate).
  destruct (empty out); simpl; intros [H|H]; try discriminate;
    apply in_app_or in H; destruct H as [H|H]; try contradiction.
  - simpl in H. intuition discriminate.
  - pose proof (aggregate_events_count observed out) as (_ & Ha).
    assert (Hin : existsb is_alert (aggregate_events observed out) = true).
    { apply existsb_exists. exists (st_error msg). split; [exact H|].
      reflexivity. }
    congruence.
Qed.

(** ** Selecting every offered month *)

Lemma filter_keeps_all {A : Type} (p : A -> bool) (l : list A) :
  (forall x, In x l -> p x = true) -> filter p l = l.
Proof.
  induction l as [|a l IH]; intros H; simpl; [reflexivity|].
  rewrite (H a (or_introl eq_refl)), IH; [reflexivity|].
  intros x Hx. apply H. right. exact Hx.
Qed.

Lemma month_options_nonempty (df : list CleanRow) :
  df <> [] -> month_options df <> [].
Proof.
  destruct df as [|r df]; [congruence|]. intros _ E.
  assert (H : In (Month r) (month_options (r :: df))).
  { apply Z_keys_In. left. reflexivity. }
  rewrite E in H. exact H.
Qed.

Lemma offered_month_isin (df : list CleanRow) (r : CleanRow) :
  In r df -> isin (month_options df) (Month r) = true.
Proof.
  intros Hr. unfold isin. apply existsb_exists.
  exists (Month r). split; [|apply Z.eqb_refl].
  apply Z_keys_In. apply in_map. exact Hr.
Qed.

(** X3.  With the selector's default, every offered month selected, the filter
    returns the whole cleaned dataset, rows and order unchanged, and logs
    nothing; the run then aggregates the whole dataset with no warning. *)
Theorem full_selection_is_identity (observed : bool) (df_raw : list RawRow)
  (df : list CleanRow) :
  preprocess df_raw = Some df ->
  df <> [] ->
  (forall log, time_filter df (month_options df) log = (Ret df, log)) /\
  run observed (Some df_raw) (month_options df)
  = (Ret tt,
     st_sidebar_multiselect (month_options df) (month_options df)
       :: aggregate_events observed df).
Proof.
  intros Hp Hne.
  assert (Ht : forall log,
             time_filter df (month_options df) log = (Ret df, log)).
  { intros log. pose proof (month_options_nonempty df Hne) as Ho.
    destruct (month_options df) as [|m ms] eqn:E; [congruence|].
    rewrite time_filter_selection. rewrite <- E.
    rewrite filter_keeps_all; [reflexivity|].
    intros r Hr. apply offered_month_isin. exact Hr. }
  split; [exact Ht|].
  rewrite (run_filtered observed _ _ _ _ _ Hp (Ht [])).
  destruct df as [|r rest]; [congruence|].
  rewrite gate_passes. reflexivity.
Qed.

Lemma full_selection_is_identity_witness :
  (forall log, time_filter example_df (month_options example_df) log
               = (Ret example_df, log)) /\
  run false (Some example_raw) (month_options example_df)
  = (Ret tt,
     st_sidebar_multiselect (month_options example_df)
                            (month_options example_df)
       :: aggregate_events false example_df).
Proof.
  apply (full_selection_is_identity false example_raw example_df).
  - vm_compute. reflexivity.
  - discriminate.
Defined.

(** ** Headline metrics *)



Lemma Qnat_nonzero (n : nat) : (1 <= n)%nat -> ~ (Qnat n == 0)%Q.
Proof.
  intros H E. unfold Qnat, Qeq in E. simpl in E. lia.
Qed.





(** ** The monthly trend *)

Lemma insert_asc_front {A : Type} (key : A -> string) (x : A) (l : list A) :
  Forall (fun y => String.compare (key x) (key y) = Lt) l ->
  insert_asc key x l = x :: l.
Proof.
  destruct l as [|y l]; [reflexivity|].
  intros H. inversion H as [|? ? Hxy _]; subst. simpl.
  rewrite String_as_OT.cmp_antisym.
  change (String_as_OT.cmp (key x) (key y))
    with (String.compare (key x) (key y)).
  rewrite Hxy. reflexivity.
Qed.

(** Sorting by a key that already ascends changes nothing. *)
Lemma sort_values_sorted {A : Type} (key : A -> string) (l : list A) :
  StronglySorted (fun a b => String.compare (key a) (key b) = Lt) l ->
  sort_values key l = l.
Proof.
  induction 1 as [|x l S IH F]; [reflexivity|].
  unfold sort_values in *. simpl. rewrite IH.
  apply insert_asc_front. exact F.
Qed.

Lemma monthly_summary_groups (df : list CleanRow) :
  monthly_summary df
  = map (fun k =>
           (k,
            Qsum (map TotalPrice (group_rows String.compare YearMonth k df)),
            nunique (map (fun r : CleanRow => InvoiceNo r)
                         (group_rows String.compare YearMonth k df))))
        (sorted_unique String.compare (map YearMonth df)).
Proof.
  unfold monthly_summary. apply sort_values_sorted.
  pose proof (string_keys_sorted (map YearMonth df)) as S.
  induction S as [|k ks S IH F]; simpl; constructor; [exact IH|].
  apply Forall_forall. intros e He.
  apply in_map_iff in He. destruct He as (k' & <- & Hk'). simpl.
  rewrite Forall_forall in F. apply (F k' Hk').
Qed.


(** ** What filtering does to the totals *)






(** ** Rankings by revenue *)

Lemma rev_gtb_true (a b : string * Q) :
  rev_gtb a b = true <-> (snd b < snd a)%Q.
Proof. unfold rev_gtb. apply Qgtb_true. Qed.

Lemma insert_desc_ranked_Q (x : string * Q) (l : list (string * Q)) :
  StronglySorted ranks_before_Q l ->
  Forall (key_before_Q x) l ->
  StronglySorted ranks_before_Q (insert_desc rev_gtb x l).
Proof.
  induction 1 as [|y l S IH F]; intros Hk; simpl.
  - constructor; constructor.
  - inversion Hk as [|? ? Hxy Hk']; subst.
    destruct (rev_gtb y x) eqn:E.
    + apply rev_gtb_true in E.
      constructor; [apply IH; exact Hk'|].
      apply Forall_forall. intros z Hz.
      apply (Permutation_in z (insert_desc_perm rev_gtb x l)) in Hz.
      destruct Hz as [<-|Hz].
      * left. exact E.
      * rewrite Forall_forall in F. apply F. exact Hz.
    + assert (Hle : (snd y <= snd x)%Q).
      { apply Qnot_lt_le. intros Hlt.
        apply rev_gtb_true in Hlt. congruence. }
      constructor; [constructor; assumption|].
      constructor.
      * unfold ranks_before_Q, key_before_Q in *.
        destruct (Qle_lt_or_eq _ _ Hle) as [Hlt|Heq]; [left; exact Hlt|].
        right. split; [symmetry; exact Heq|exact Hxy].
      * rewrite Forall_forall in *. intros z Hz.
        specialize (F z Hz). specialize (Hk' z Hz).
        unfold ranks_before_Q, key_before_Q in *.
        assert (Hzy : (snd z <= snd y)%Q).
        { destruct F as [H|[H _]];
            [apply Qlt_le_weak; exact H|rewrite H; apply Qle_refl]. }
        destruct (Qle_lt_or_eq _ _ (Qle_trans _ _ _ Hzy Hle)) as [Hlt|Heq];
          [left; exact Hlt|].
        right. split; [symmetry; exact Heq|exact Hk'].
Qed.

Lemma sort_desc_ranked_Q (l : list (string * Q)) :
  StronglySorted key_before_Q l ->
  StronglySorted ranks_before_Q (sort_desc rev_gtb l).
Proof.
  induction 1 as [|x l S IH F]; simpl.
  - constructor.
  - apply insert_desc_ranked_Q; [exact IH|].
    rewrite Forall_forall in *. intros z Hz. apply F.
    apply (Permutation_in z (sort_desc_perm rev_gtb l)). exact Hz.
Qed.

Lemma groupby_sum_Q_sorted {R : Type} (key : R -> string) (val : R -> Q)
  (df : list R) :
  StronglySorted key_before_Q (groupby_sum_Q String.compare key val df).
Proof.
  unfold groupby_sum_Q.
  pose proof (string_keys_sorted (map key df)) as S.
  induction S as [|k ks S IH F]; simpl; constructor; [exact IH|].
  apply Forall_forall. intros e He.
  apply in_map_iff in He. destruct He as (k' & <- & Hk').
  rewrite Forall_forall in F. apply (F k' Hk').
Qed.

Lemma ranks_before_Q_desc (a b : string * Q) :
  ranks_before_Q a b -> (snd b <= snd a)%Q.
Proof.
  intros [H|[H _]]; [apply Qlt_le_weak; exact H|].
  rewrite H. apply Qle_refl.
Qed.

(** X9.  On every frame the ranking of products by revenue has at most ten
    entries, all of them grouped products of the frame, in descending order
    of revenue; products with equal revenue appear in ascending order of
    description, and every product left out ranks after every product kept,
    by revenue and then by description. *)
Theorem top_products_by_revenue (df : list CleanRow) :
  (List.length (top_revenue_products df) <= 10)%nat /\
  List.length (top_revenue_products df)
  = Nat.min 10 (List.length (revenue_by_product df)) /\
  incl (top_revenue_products df) (revenue_by_product df) /\
  StronglySorted (fun a b => (snd b <= snd a)%Q) (top_revenue_products df) /\
  StronglySorted ranks_before_Q (top_revenue_products df) /\
  (forall e t,
     In e (revenue_by_product df) -> ~ In e (top_revenue_products df) ->
     In t (top_revenue_products df) -> ranks_before_Q t e).
Proof.
  change (top_revenue_products df)
    with (nlargest rev_gtb 10 (revenue_by_product df)).
  pose proof (sort_desc_ranked_Q _
                (groupby_sum_Q_sorted (fun r : CleanRow => Description r)
                                      TotalPrice df)) as S.
  fold (revenue_by_product df) in S.
  split; [rewrite nlargest_length; lia|].
  split; [apply nlargest_length|].
  split; [apply nlargest_incl|].
  split.
  { apply sorted_weaken with (R := ranks_before_Q).
    - exact ranks_before_Q_desc.
    - apply sorted_firstn. exact S. }
  split; [apply sorted_firstn; exact S|].
  intros e t He Hne Ht. unfold nlargest in *.
  apply (sorted_firstn_skipn ranks_before_Q 10
           (sort_desc rev_gtb (revenue_by_product df))); [exact S|exact Ht|].
  apply (Permutation_in e
           (Permutation_sym (sort_desc_perm rev_gtb (revenue_by_product df))))
    in He.
  rewrite <- (firstn_skipn 10 (sort_desc rev_gtb (revenue_by_product df)))
    in He.
  apply in_app_or in He. destruct He as [He|He]; [contradiction|exact He].
Qed.

(** ** What the country chart shows *)

Lemma country_sales_keys (df : list CleanRow) (c : string) :
  In c (map fst (country_sales df))
  <-> In c (map (fun r : CleanRow => Country r) df).
Proof.
  assert (E : map fst (country_sales df)
              = sorted_unique String.compare
                  (map (fun r : CleanRow => Country r) df)).
  { unfold country_sales, groupby_sum_Q. rewrite map_map. simpl.
    apply map_id. }
  rewrite E. apply string_keys_In.
Qed.

Lemma country_sales_top_10_ranked (df : list CleanRow) :
  StronglySorted ranks_before_Q (country_sales_top_10 df).
Proof.
  change (country_sales_top_10 df)
    with (nlargest rev_gtb 11 (country_sales df)).
  apply sorted_firstn. apply sort_desc_ranked_Q.
  apply groupby_sum_Q_sorted.
Qed.

(** X10.  Whichever branch is taken, the country chart never shows the dominant
    country, and every entry it shows is a grouped country with its summed
    revenue.  Under the first title the entries are all the other
    countries; under the second they are the at most eleven largest, in
    descending order of revenue. *)
Theorem country_chart_never_shows_dominant (df : list CleanRow) :
  exists title data,
    country_chart df = fig_country title data /\
    ~ In United_Kingdom (map fst data) /\
    incl data (country_sales df) /\
    ((dominant_in_top df = true /\ title = title_other /\
      forall e, In e data <->
                In e (country_sales df) /\ fst e <> United_Kingdom) \/
     (dominant_in_top df = false /\ title = title_top_10 /\
      (List.length data <= 11)%nat /\
      StronglySorted (fun a b => (snd b <= snd a)%Q) data)).
Proof.
  destruct (dominant_in_top df) eqn:E.
  - exists title_other, (country_sales_other df).
    split; [apply country_chart_dominant_in_top; exact E|].
    split.
    { intros Hin. apply in_map_iff in Hin.
      destruct Hin as (e & He & Hin).
      apply country_sales_other_spec in Hin. apply Hin. exact He. }
    split.
    { intros e He. apply country_sales_other_spec in He. apply He. }
    left. split; [reflexivity|]. split; [reflexivity|].
    intros e. apply country_sales_other_spec.
  - exists title_top_10, (country_sales_top_10 df).
    split; [apply country_chart_dominant_not_in_top; exact E|].
    split.
    { intros Hin. apply dominant_in_top_spec in Hin. congruence. }
    split; [apply nlargest_incl|].
    right. split; [reflexivity|]. split; [reflexivity|]. split.
    + unfold country_sales_top_10. rewrite nlargest_length. lia.
    + apply sorted_weaken with (R := ranks_before_Q).
      * exact ranks_before_Q_desc.
      * apply country_sales_top_10_ranked.
Qed.

(** X11.  With at most eleven countries in the frame the chart branches on
    whether the dominant country occurs in it: if it does, the chart shows
    all the other countries; if it does not, the chart shows every country,
    in descending order of revenue. *)
Theorem country_chart_few_countries (df : list CleanRow) :
  (List.length (country_sales df) <= 11)%nat ->
  (In United_Kingdom (map (fun r : CleanRow => Country r) df) ->
   country_chart df = fig_country title_other (country_sales_other df)) /\
  (~ In United_Kingdom (map (fun r : CleanRow => Country r) df) ->
   country_chart df = fig_country title_top_10 (country_sales_top_10 df) /\
   Permutation (country_sales_top_10 df) (country_sales df) /\
   StronglySorted (fun a b => (snd b <= snd a)%Q) (country_sales_top_10 df)).
Proof.
  intros Hlen. split.
  - intros Hin. apply country_chart_dominant_in_top.
    apply (dominant_in_top_small df Hlen).
    apply country_sales_keys. exact Hin.
  - intros Hnin.
    assert (E : dominant_in_top df = false).
    { destruct (dominant_in_top df) eqn:E; [|reflexivity].
      exfalso. apply Hnin. apply country_sales_keys.
      apply (dominant_in_top_small df Hlen). exact E. }
    split; [apply country_chart_dominant_not_in_top; exact E|].
    split; [apply nlargest_all; exact Hlen|].
    apply sorted_weaken with (R := ranks_before_Q).
    + exact ranks_before_Q_desc.
    + apply country_sales_top_10_ranked.
Qed.

Lemma country_chart_few_countries_witness :
  country_chart three_df = fig_country title_other (country_sales_other three_df)
  /\ Permutation (country_sales_top_10 example_df) (country_sales example_df).
Proof.
  split.
  - apply (country_chart_few_countries three_df).
    + vm_compute. lia.
    + vm_compute. intuition.
  - apply (country_chart_few_countries example_df).
    + vm_compute. lia.
    + vm_compute. intuition discriminate.
Defined.

(** ** Preprocessing is row by row *)

Lemma astype_int_app (a b : list RawRow) :
  astype_int_CustomerID (a ++ b)
  = match astype_int_CustomerID a, astype_int_CustomerID b with
    | Some x, Some y => Some (x ++ y)
    | _, _ => None
    end.
Proof.
  induction a as [|r a IH]; simpl.
  - destruct (astype_int_CustomerID b); reflexivity.
  - rewrite IH. destruct (astype_int_row r); [|reflexivity].
    destruct (astype_int_CustomerID a); [|reflexivity].
    destruct (astype_int_CustomerID b); reflexivity.
Qed.

Lemma preprocess_app (a b : list RawRow) (da db : list CleanRow) :
  preprocess a = Some da -> preprocess b = Some db ->
  preprocess (a ++ b) = Some (da ++ db).
Proof.
  unfold preprocess, sanitize, dropna_CustomerID.
  rewrite filter_app, astype_int_app. unfold RawRow.
  destruct (astype_int_CustomerID
              (filter (fun r => notna (Raw.CustomerID r)) a)) as [x|];
    [|discriminate].
  destruct (astype_int_CustomerID
              (filter (fun r => notna (Raw.CustomerID r)) b)) as [y|];
    [|discriminate].
  intros Ha Hb. injection Ha as <-. injection Hb as <-.
  cbv beta iota.
  unfold drop_nonpositive, derive. rewrite filter_app, map_app. reflexivity.
Qed.

Lemma sanitized_from_length (l0 : list RawRow) (l : list SaneRow) :
  sanitized_from l0 l -> (List.length l <= List.length l0)%nat.
Proof. induction 1; simpl; lia. Qed.

Lemma sanitized_from_all_valid (l0 : list RawRow) (l : list SaneRow) :
  sanitized_from l0 l -> Forall valid_raw l0 ->
  List.length l = List.length l0.
Proof.
  induction 1 as [|r0 r l0 l Hv Hp Hs IH|r0 l0 l Hn Hs IH]; intros Hf.
  - reflexivity.
  - inversion Hf; subst. simpl. rewrite IH; [reflexivity|assumption].
  - inversion Hf; subst. contradiction.
Qed.

Lemma sanitized_from_none_valid (l0 : list RawRow) (l : list SaneRow) :
  sanitized_from l0 l -> Forall (fun r0 => ~ valid_raw r0) l0 -> l = [].
Proof.
  induction 1 as [|r0 r l0 l Hv Hp Hs IH|r0 l0 l Hn Hs IH]; intros Hf.
  - reflexivity.
  - inversion Hf; subst. contradiction.
  - inversion Hf; subst. apply IH. assumption.
Qed.

(** X12.  Preprocessing treats each loaded row on its own: the cleaned frame of
    two tables put end to end is the two cleaned frames put end to end.  It
    never has more rows than were loaded; it has as many when every loaded
    row is valid, and none when no loaded row is. *)
Theorem preprocessing_is_row_by_row (a b : list RawRow) :
  exists da db,
    preprocess a = Some da /\
    preprocess b = Some db /\
    preprocess (a ++ b) = Some (da ++ db) /\
    (List.length da <= List.length a)%nat /\
    (Forall valid_raw a -> List.length da = List.length a) /\
    (Forall (fun r0 => ~ valid_raw r0) a -> da = []).
Proof.
  destruct (sanitize_steps a) as (mid & Hmid & Hs).
  assert (Hsa : sanitize a = Some (drop_nonpositive mid))
    by (unfold sanitize; rewrite Hmid; reflexivity).
  assert (Hpa : preprocess a = Some (derive (drop_nonpositive mid)))
    by (unfold preprocess; rewrite Hsa; reflexivity).
  destruct (preprocess_total b) as (sb & _ & Hpb).
  exists (derive (drop_nonpositive mid)), (derive sb).
  split; [exact Hpa|]. split; [exact Hpb|].
  split; [apply preprocess_app; assumption|].
  unfold derive. rewrite length_map.
  split; [apply sanitized_from_length; exact Hs|].
  split.
  - apply sanitized_from_all_valid. exact Hs.
  - intros Hf. rewrite (sanitized_from_none_valid _ _ Hs Hf). reflexivity.
Qed.

Lemma preprocessing_is_row_by_row_witness :
  exists da db,
    preprocess example_raw = Some da /\
    preprocess three_raw = Some db /\
    preprocess (example_raw ++ three_raw) = Some (da ++ db) /\
    (List.length da <= List.length example_raw)%nat /\
    (Forall valid_raw example_raw ->
     List.length da = List.length example_raw) /\
    (Forall (fun r0 => ~ valid_raw r0) example_raw -> da = []).
Proof.
  exact (preprocessing_is_row_by_row example_raw three_raw).
Defined.

(** ** Calendar fields *)

Lemma civil_month_range (days : Z) : 1 <= snd (civil_year_month days) <= 12.
Proof.
  cbv beta iota zeta delta [civil_year_month snd].
  set (z := days + 719468).
  set (doe := z - z / 146097 * 146097).
  assert (Hdoe : 0 <= doe < 146097).
  { unfold doe. pose proof (Z.mod_pos_bound z 146097 ltac:(lia)) as H.
    rewrite Z.mod_eq in H by lia. lia. }
  clearbody doe. clear z.
  set (yoe := (doe - doe / 1460 + doe / 36524 - doe / 146096) / 365).
  set (doy := doe - (365 * yoe + yoe / 4 - yoe / 100)).
  assert (Hdoy : 0 <= doy <= 365).
  { unfold doy, yoe. Z.div_mod_to_equations. lia. }
  clearbody doy.
  destruct (Z.ltb_spec ((5 * doy + 2) / 153) 10);
    Z.div_mod_to_equations; lia.
Qed.

Lemma dt_month_range (t : Z) : 1 <= dt_month t <= 12.
Proof. apply civil_month_range. Qed.

Lemma digit_inj (a b : Z) : digit a = digit b -> a mod 10 = b mod 10.
Proof.
  unfold digit. intros H.
  pose proof (Z.mod_pos_bound a 10 ltac:(lia)) as Ha.
  pose proof (Z.mod_pos_bound b 10 ltac:(lia)) as Hb.
  apply (f_equal nat_of_ascii) in H.
  rewrite !nat_ascii_embedding in H by lia. lia.
Qed.

(** The month label determines the month number. *)
Lemma label_determines_month (t t' : Z) :
  period_M_str t = period_M_str t' -> dt_month t = dt_month t'.
Proof.
  unfold period_M_str. intros H.
  injection H as _ _ _ _ H1 H2.
  apply digit_inj in H1. apply digit_inj in H2.
  pose proof (dt_month_range t) as Hm. pose proof (dt_month_range t') as Hm'.
  revert H1 H2. generalize (dt_month t) (dt_month t') Hm Hm'.
  intros m m' Hr Hr' H1 H2. Z.div_mod_to_equations. lia.
Qed.

(** X14.  Every derived row has a month of 1 to 12, an hour of 0 to 23, one of
    the seven weekday names, and a month label of seven characters; rows
    with the same month label have the same month number. *)
Theorem calendar_fields_in_range (r : SaneRow) :
  1 <= Month (derive_row r) <= 12 /\
  0 <= Hour (derive_row r) <= 23 /\
  In (dt_day_name (InvoiceDate r)) day_order /\
  String.length (YearMonth (derive_row r)) = 7%nat /\
  (forall r' : SaneRow,
     YearMonth (derive_row r) = YearMonth (derive_row r') ->
     Month (derive_row r) = Month (derive_row r')).
Proof.
  split; [apply dt_month_range|].
  split; [pose proof (dt_hour_range (InvoiceDate r)); simpl; lia|].
  split.
  { destruct (day_name_is_category (InvoiceDate r)) as (i & Hi & _ & Hl & _).
    rewrite <- Hl. unfold day_label. apply nth_In. simpl. lia. }
  split; [reflexivity|].
  intros r'. simpl. apply label_determines_month.
Qed.

(** X15.  The months the selector offers are the months of the cleaned dataset,
    each once, in ascending order, all between 1 and 12, so at most
    twelve. *)
Theorem month_options_offered (df_raw : list RawRow) (df : list CleanRow) :
  preprocess df_raw = Some df ->
  StronglySorted Z.lt (month_options df) /\
  Forall (fun m => 1 <= m <= 12) (month_options df) /\
  (List.length (month_options df) <= 12)%nat /\
  (forall m, In m (month_options df) <-> exists r, In r df /\ Month r = m).
Proof.
  intros Hp. pose proof (preprocess_derived _ _ Hp) as Hd.
  assert (Hr : Forall (fun m => 1 <= m <= 12) (month_options df)).
  { apply Forall_forall. intros m Hm. unfold month_options in Hm.
    apply (proj1 (Z_keys_In _ _)) in Hm. apply in_map_iff in Hm.
    destruct Hm as (r & <- & Hr). rewrite Forall_forall in Hd.
    rewrite (Hd r Hr). apply dt_month_range. }
  split.
  { pose proof (Z_keys_sorted (map Month df)) as S.
    fold (month_options df) in S.
    induction S as [|a l _ IH F]; constructor.
    - apply IH. inversion Hr; assumption.
    - eapply Forall_impl; [|exact F].
      intros b Hb. apply Z.compare_lt_iff. exact Hb. }
  split; [exact Hr|]. split.
  { change 12%nat with (List.length (map Z.of_nat (seq 1 12))).
    apply NoDup_incl_length; [apply Z_keys_NoDup|].
    intros m Hm. rewrite Forall_forall in Hr. specialize (Hr m Hm).
    apply in_map_iff. exists (Z.to_nat m). split; [lia|].
    apply in_seq. lia. }
  intros m. unfold month_options. rewrite Z_keys_In, in_map_iff.
  split; intros (r & H1 & H2); exists r; auto.
Qed.

Lemma month_options_offered_witness :
  StronglySorted Z.lt (month_options example_df) /\
  Forall (fun m => 1 <= m <= 12) (month_options example_df) /\
  (List.length (month_options example_df) <= 12)%nat /\
  (forall m, In m (month_options example_df)
             <-> exists r, In r example_df /\ Month r = m).
Proof.
  apply (month_options_offered example_raw example_df).
  vm_compute. reflexivity.
Defined.

(** ** The month filter and the monthly trend *)

Lemma filter_filter_absorb {A : Type} (p q : A -> bool) (l : list A) :
  (forall x, In x l -> q x = true -> p x = true) ->
  filter q (filter p l) = filter q l.
Proof.
  induction l as [|a l IH]; intros H; simpl; [reflexivity|].
  assert (IH' : filter q (filter p l) = filter q l).
  { apply IH. intros x Hx. apply H. right. exact Hx. }
  destruct (p a) eqn:Ep; simpl.
  - rewrite IH'. reflexivity.
  - destruct (q a) eqn:Eq; [|exact IH'].
    rewrite (H a (or_introl eq_refl) Eq) in Ep. discriminate.
Qed.

(** In the cleaned dataset the rows of one month label are selected
    together or not at all. *)
Lemma month_group_kept (df_raw : list RawRow) (df : list CleanRow)
  (sel : list Z) (k : string) :
  preprocess df_raw = Some df ->
  In k (map YearMonth (filter (fun r => isin sel (Month r)) df)) ->
  group_rows String.compare YearMonth k
             (filter (fun r => isin sel (Month r)) df)
  = group_rows String.compare YearMonth k df.
Proof.
  intros Hp Hk. pose proof (preprocess_derived _ _ Hp) as Hd.
  rewrite Forall_forall in Hd.
  apply in_map_iff in Hk. destruct Hk as (r0 & Hk0 & Hr0).
  apply filter_In in Hr0. destruct Hr0 as (Hr0 & Hs0).
  unfold group_rows. apply filter_filter_absorb.
  intros r Hr Hkr. apply string_key_eqb_true in Hkr.
  assert (Hm : Month r = Month r0).
  { pose proof (Hd r Hr) as Er. pose proof (Hd r0 Hr0) as Er0.
    assert (E : YearMonth (derive_row (base r))
                = YearMonth (derive_row (base r0)))
      by (rewrite <- Er, <- Er0; congruence).
    rewrite Er, Er0. simpl. apply label_determines_month. exact E. }
  rewrite Hm. exact Hs0.
Qed.

(** X16.  Filtering by month removes whole months from the monthly trend: every
    entry of the trend of the filtered frame is, label, sales and order
    count, an entry of the trend of the whole cleaned dataset.  Filtering
    the filtered frame again with the same selection changes nothing. *)
Theorem month_filter_keeps_whole_months (df_raw : list RawRow)
  (sel : list Z) (df out : list CleanRow) (w : list event) :
  preprocess df_raw = Some df ->
  time_filter df sel [] = (Ret out, w) ->
  (forall e, In e (monthly_summary out) -> In e (monthly_summary df)) /\
  (forall log, fst (time_filter out sel log) = Ret out).
Proof.
  intros Hp Ht. destruct sel as [|m ms].
  - rewrite time_filter_empty_selection in Ht. injection Ht as <- _.
    split; [auto|]. intros log. reflexivity.
  - assert (E : out = filter (fun r => isin (m :: ms) (Month r)) df)
      by (rewrite time_filter_selection in Ht; congruence).
    subst out. clear Ht. split.
    + intros e. rewrite !monthly_summary_groups, !in_map_iff.
      intros (k & <- & Hk). apply (proj1 (string_keys_In _ _)) in Hk.
      exists k. split.
      * rewrite (month_group_kept df_raw df (m :: ms) k Hp Hk). reflexivity.
      * apply string_keys_In. apply in_map_iff in Hk.
        destruct Hk as (r & <- & Hr). apply filter_In in Hr.
        apply in_map. apply Hr.
    + intros log. rewrite time_filter_selection. simpl fst. f_equal.
      apply filter_keeps_all. intros r Hr.
      apply filter_In in Hr. apply Hr.
Qed.

Lemma month_filter_keeps_whole_months_witness :
  (forall e, In e (monthly_summary example_df) ->
             In e (monthly_summary example_df)) /\
  (forall log, fst (time_filter example_df [1] log) = Ret example_df).
Proof.
  apply (month_filter_keeps_whole_months example_raw [1] example_df
           example_df []).
  - vm_compute. reflexivity.
  - vm_compute. reflexivity.
Defined.

(** ** What does not depend on order *)

Lemma isin_ext (sel sel' : list Z) (m : Z) :
  (forall x, In x sel <-> In x sel') -> isin sel m = isin sel' m.
Proof.
  intros H. unfold isin.
  destruct (existsb (Z.eqb m) sel) eqn:E.
  - symmetry. apply existsb_exists. apply existsb_exists in E.
    destruct E as (x & Hx & Ex). exists x. split; [apply H; exact Hx|exact Ex].
  - destruct (existsb (Z.eqb m) sel') eqn:E'; [|reflexivity].
    apply existsb_exists in E'. destruct E' as (x & Hx & Ex).
    assert (existsb (Z.eqb m) sel = true).
    { apply existsb_exists. exists x. split; [apply H; exact Hx|exact Ex]. }
    congruence.
Qed.

(** X17.  Only the set of selected months matters to a run: the order in which
    the months were picked, and a month picked twice, change nothing of
    what the run shows. *)
Theorem selection_order_is_irrelevant (observed : bool)
  (file : option (list RawRow))
  (sel sel' : list Z) :
  (forall m, In m sel <-> In m sel') ->
  run observed file sel = run observed file sel'.
Proof.
  intros H. destruct file as [df_raw|]; [|reflexivity].
  destruct (preprocess_total df_raw) as (sane & _ & Hp).
  assert (Ht : time_filter (derive sane) sel []
               = time_filter (derive sane) sel' []).
  { destruct sel as [|m ms], sel' as [|m' ms'].
    - reflexivity.
    - exfalso. apply (proj2 (H m')). left. reflexivity.
    - exfalso. apply (proj1 (H m)). left. reflexivity.
    - rewrite !time_filter_selection. f_equal. f_equal.
      apply filter_ext. intros r. apply isin_ext. exact H. }
  destruct (time_filter_returns (derive sane) sel) as (out & w & Hr & _).
  rewrite (run_filtered observed _ _ _ _ _ Hp Hr).
  rewrite Ht in Hr.
  rewrite (run_filtered observed _ _ _ _ _ Hp Hr). reflexivity.
Qed.

Lemma selection_order_is_irrelevant_witness :
  run false (Some example_raw) [1; 2] = run false (Some example_raw) [2; 1; 1].
Proof.
  apply (selection_order_is_irrelevant false (Some example_raw) [1; 2] [2; 1; 1]).
  intros m. simpl. intuition.
Defined.

Lemma nodup_length_perm {A : Type} (dec : forall x y : A, {x = y} + {x <> y})
  (l l' : list A) :
  Permutation l l' ->
  List.length (nodup dec l) = List.length (nodup dec l').
Proof.
  intros Hp. apply Nat.le_antisymm;
    (apply NoDup_incl_length; [apply NoDup_nodup|]);
    intros x Hx; apply nodup_In in Hx; apply nodup_In.
  - apply (Permutation_in x Hp). exact Hx.
  - apply (Permutation_in x (Permutation_sym Hp)). exact Hx.
Qed.

Lemma existsb_perm {A : Type} (p : A -> bool) (l l' : list A) :
  Permutation l l' -> existsb p l = existsb p l'.
Proof.
  induction 1 as [|a l l' _ IH|a b l|l1 l2 l3 _ IH1 _ IH2]; simpl.
  - reflexivity.
  - rewrite IH. reflexivity.
  - destruct (p a), (p b); reflexivity.
  - congruence.
Qed.

Lemma hours_perm (df df' : list CleanRow) :
  Permutation df df' -> hours df = hours df'.
Proof.
  intros Hp. unfold hours. apply sorted_unique_ext; try Z_order.
  intros x. split; apply Permutation_in; apply Permutation_map;
    [exact Hp|apply Permutation_sym; exact Hp].
Qed.

Lemma group_hours_perm (observed : bool) (df df' : list CleanRow) (i : nat) :
  Permutation df df' -> group_hours observed df i = group_hours observed df' i.
Proof.
  intros Hp. unfold group_hours.
  fold (hours df). fold (hours df'). rewrite (hours_perm df df' Hp).
  destruct observed; [|reflexivity].
  apply filter_ext. intros h. unfold occurs_day_hour.
  apply existsb_perm. exact Hp.
Qed.

Lemma day_hour_sum_keys (observed : bool) (df : list CleanRow) :
  map fst (day_hour_sum observed df)
  = flat_map (fun i => map (fun h => (i, h)) (group_hours observed df i))
             day_codes.
Proof.
  unfold day_hour_sum. induction day_codes as [|i codes IH]; simpl.
  - reflexivity.
  - rewrite map_app, IH, map_map. reflexivity.
Qed.

(** The labels of an unstacked series depend on its keys only. *)
Lemma unstack_labels (fill : Q) (s s' : list ((nat * Z) * Q)) :
  map fst s = map fst s' ->
  index (unstack fill s) = index (unstack fill s') /\
  columns (unstack fill s) = columns (unstack fill s').
Proof.
  intros H. unfold unstack. simpl.
  assert (E0 : map (fun e : nat * Z * Q => fst (fst e)) s
               = map (fun e : nat * Z * Q => fst (fst e)) s').
  { rewrite <- (map_map fst fst s), <- (map_map fst fst s'), H.
    reflexivity. }
  assert (E1 : map (fun e : nat * Z * Q => snd (fst e)) s
               = map (fun e : nat * Z * Q => snd (fst e)) s').
  { rewrite <- (map_map fst snd s), <- (map_map fst snd s'), H.
    reflexivity. }
  rewrite E0, E1. split; reflexivity.
Qed.

Lemma monthly_labels (df : list CleanRow) :
  map (fun e => fst (fst e)) (monthly_summary df)
  = sorted_unique String.compare (map YearMonth df).
Proof.
  rewrite monthly_summary_groups, map_map. simpl. apply map_id.
Qed.

(** X18.  The order of the rows of a frame is immaterial to what the
    views list: reordering the rows leaves the numbers of distinct orders
    and customers, the months offered, the labels of the monthly trend, the
    weekdays of the weekday totals and the row and column labels of the
    hour matrix as they were, whichever grouping default is in force. *)
Theorem row_order_is_irrelevant (df df' : list CleanRow) :
  Permutation df df' ->
  total_orders df = total_orders df' /\
  total_customers df = total_customers df' /\
  month_options df = month_options df' /\
  map (fun e => fst (fst e)) (monthly_summary df)
  = map (fun e => fst (fst e)) (monthly_summary df') /\
  (forall observed,
     map fst (daily_sales observed df) = map fst (daily_sales observed df') /\
     index (hourly_sales observed df) = index (hourly_sales observed df') /\
     columns (hourly_sales observed df)
     = columns (hourly_sales observed df')).
Proof.
  intros Hp.
  split.
  { unfold total_orders, nunique. apply nodup_length_perm.
    apply Permutation_map. exact Hp. }
  split.
  { unfold total_customers. apply nodup_length_perm.
    apply Permutation_map. exact Hp. }
  split.
  { unfold month_options. apply sorted_unique_ext; try Z_order.
    intros x. split; apply Permutation_in; apply Permutation_map;
      [exact Hp|apply Permutation_sym; exact Hp]. }
  split.
  { rewrite !monthly_labels. apply string_keys_ext.
    intros x. split; apply Permutation_in; apply Permutation_map;
      [exact Hp|apply Permutation_sym; exact Hp]. }
  intros observed. split.
  { rewrite !daily_sales_labels, (group_days_perm observed df df' Hp).
    reflexivity. }
  unfold hourly_sales. apply unstack_labels.
  rewrite !day_hour_sum_keys.
  apply flat_map_ext. intros i.
  rewrite (group_hours_perm observed df df' i Hp). reflexivity.
Qed.

Lemma row_order_is_irrelevant_witness :
  total_orders tied_df = total_orders (rev tied_df) /\
  month_options tied_df = month_options (rev tied_df).
Proof.
  pose proof (row_order_is_irrelevant tied_df (rev tied_df)
                (Permutation_rev tied_df)) as (H1 & _ & H3 & _).
  split; [exact H1|exact H3].
Defined.
